(** * Edge authentication gateway: a shallow embedding of the worker

    The worker is a Hono application.  One middleware, [accessAuth]
    (src/middleware/auth.ts), guards every route; the routes themselves
    (src/index.ts) forward to the backend through the [VPC_SERVICE] binding,
    bridge a WebSocket pair to the backend, or redirect.

    The embedding keeps the shape of the TypeScript:
    - JavaScript values that may be [undefined] are [option]s, and the
      conditions [if (x)] / [if (!x)] go through [truthy];
    - the handlers are written in a small monad [Eff] that threads the
      history of observable effects (console output, outbound fetches,
      socket calls) and carries JavaScript exceptions, with [try_catch]
      for [try { .. } catch (e) { .. }];
    - everything the worker does not own (the backend behind
      [VPC_SERVICE.fetch], the [jose] verification library, the runtime's
      sockets) is a [Platform]: an arbitrary function of the history so far
      and of the arguments of the call;
    - the event listeners registered on the sockets are closures in the
      source; here they are the constructors of [Listener], each carrying
      the variable it captures, and [run_listener] is their body. *)

From Stdlib Require Import String Ascii List ZArith Bool.
Import ListNotations.
Local Open Scope string_scope.
Local Open Scope list_scope.
Local Open Scope Z_scope.

(** ** JavaScript values *)

Module Js.

(** Values that can be thrown and caught.  [error instanceof Error] and
    the template literal [`${error}`] are the only operations the source
    performs on them. *)
Inductive Thrown : Type :=
| ErrorObj (name message : string)
| Primitive (text : string).

Definition instanceof_Error (e : Thrown) : bool :=
  match e with
  | ErrorObj _ _ => true
  | Primitive _ => false
  end.

Definition is_empty (s : string) : bool :=
  match s with
  | EmptyString => true
  | String _ _ => false
  end.

(** [Error.prototype.toString]: the name, the message, or both joined by
    a colon; a primitive string is itself. *)
Definition to_string (e : Thrown) : string :=
  match e with
  | ErrorObj name message =>
      if is_empty name then message
      else if is_empty message then name
      else (name ++ ": " ++ message)%string
  | Primitive text => text
  end.

(** [error.message] is only read under [error instanceof Error]. *)
Definition message (e : Thrown) : string :=
  match e with
  | ErrorObj _ m => m
  | Primitive _ => ""
  end.

(** Truthiness of a [string | undefined]: [undefined] and the empty string
    are falsy, every other string is truthy. *)
Definition truthy (v : option string) : bool :=
  match v with
  | None => false
  | Some s => negb (is_empty s)
  end.

(** [a === b] on [string | undefined]. *)
Definition strict_eq (a b : option string) : bool :=
  match a, b with
  | None, None => true
  | Some x, Some y => String.eqb x y
  | _, _ => false
  end.

(** [a || b] where [b] is a string. *)
Definition or_else (a : option string) (b : string) : string :=
  match a with
  | Some s => if is_empty s then b else s
  | None => b
  end.

Definition ascii_lower (c : ascii) : ascii :=
  let n := nat_of_ascii c in
  if (Nat.leb 65 n && Nat.leb n 90)%bool then ascii_of_nat (n + 32) else c.

Fixpoint lower (s : string) : string :=
  match s with
  | EmptyString => EmptyString
  | String c r => String (ascii_lower c) (lower r)
  end.

Fixpoint starts_with (p s : string) : bool :=
  match p, s with
  | EmptyString, _ => true
  | String a p', String b s' => (Ascii.eqb a b && starts_with p' s')%bool
  | String _ _, EmptyString => false
  end.

Fixpoint drop (n : nat) (s : string) : string :=
  match n, s with
  | O, _ => s
  | S n', String _ r => drop n' r
  | S _, EmptyString => EmptyString
  end.

(** [s.replace(pat, by)] with a string pattern: the first occurrence only. *)
Fixpoint replace (pat by_ s : string) : string :=
  if starts_with pat s then (by_ ++ drop (String.length pat) s)%string
  else match s with
       | EmptyString => EmptyString
       | String c r => String c (replace pat by_ r)
       end.

End Js.

(** ** HTTP data *)

(** A header list as the Fetch standard has it: names compare without
    regard to case, [get] joins the values of one name with a comma. *)
Definition Headers := list (string * string).

Definition same_name (a b : string) : bool :=
  String.eqb (Js.lower a) (Js.lower b).

Definition headers_get (hs : Headers) (name : string) : option string :=
  match filter (fun kv => same_name (fst kv) name) hs with
  | [] => None
  | vs => Some (String.concat ", " (map snd vs))
  end.

Definition headers_set (hs : Headers) (name value : string) : Headers :=
  filter (fun kv => negb (same_name (fst kv) name)) hs ++ [(name, value)].

Inductive Socket : Type :=
| WsPair0
| WsPair1
| WsUpstream (id : nat).

(** A response body: none, text, or the JSON object [c.json] serialises
    (an object whose fields are strings is all the worker ever sends). *)
Inductive Body : Type :=
| BodyNull
| BodyText (text : string)
| BodyJson (fields : list (string * string)).

Record Response : Type := mkResponse {
  status : Z;
  resp_headers : Headers;
  body : Body;
  webSocket : option Socket
}.

Record Request : Type := mkRequest {
  req_method : string;
  req_path : string;
  req_headers : Headers;
  req_body : string
}.

(** [c.req.header(name)] *)
Definition header (req : Request) (name : string) : option string :=
  headers_get (req_headers req) name.

(** The second argument of [fetch]. *)
Record RequestInit : Type := mkInit {
  init_method : option string;
  init_headers : Headers;
  init_body : option string
}.

(** [CloudflareBindings], without [VPC_SERVICE], which is part of the
    platform below. *)
Record Env : Type := mkEnv {
  CF_ACCESS_TEAM_NAME : option string;
  CF_ACCESS_AUD : option string;
  CF_ACCESS_CLIENT_ID : option string;
  CF_ACCESS_CLIENT_SECRET : option string;
  OPENCLAW_GATEWAY_TOKEN : option string
}.

(** ** Effects *)

Inductive EventKind : Type := KMessage | KClose | KError.

Inductive Event : Type :=
| MessageEvent (data : string)
| CloseEvent (code : Z) (reason : string)
| ErrorEvent.

Definition event_kind (ev : Event) : EventKind :=
  match ev with
  | MessageEvent _ => KMessage
  | CloseEvent _ _ => KClose
  | ErrorEvent => KError
  end.

Definition kind_eqb (a b : EventKind) : bool :=
  match a, b with
  | KMessage, KMessage | KClose, KClose | KError, KError => true
  | _, _ => false
  end.

Definition socket_eqb (a b : Socket) : bool :=
  match a, b with
  | WsPair0, WsPair0 | WsPair1, WsPair1 => true
  | WsUpstream i, WsUpstream j => Nat.eqb i j
  | _, _ => false
  end.

(** The six closures of the bridge, each with the socket it captures. *)
Inductive Listener : Type :=
| server_message (openclawWs : Socket)
| server_close (openclawWs : Socket)
| server_error (openclawWs : Socket)
| openclaw_message (server : Socket)
| openclaw_close (server : Socket)
| openclaw_error (server : Socket).

Inductive LogLevel : Type := LogInfo | LogError.

Inductive LogArg : Type :=
| LStr (s : string)
| LThrown (e : Js.Thrown).

Inductive SocketOp : Type :=
| OpAccept
| OpSend (data : string)
| OpClose (code : Z) (reason : string)
| OpListen (kind : EventKind) (l : Listener).

Inductive Effect : Type :=
| Console (level : LogLevel) (args : list LogArg)
| Fetch (url : string) (init : RequestInit)
| JwtVerify (token jwks_url issuer audience : string)
| NewWebSocketPair
| SocketCall (s : Socket) (op : SocketOp)
| UncaughtException (e : Js.Thrown).

Definition History := list Effect.

Inductive Outcome (A : Type) : Type :=
| Ok (a : A)
| Throw (e : Js.Thrown).
Arguments Ok {A} a.
Arguments Throw {A} e.

(** What the worker cannot decide: every answer may depend on everything
    that happened before the call. *)
Record Platform : Type := mkPlatform {
  vpc_fetch : History -> string -> RequestInit -> Outcome Response;
  jose_verify : History -> string -> string -> string -> string -> option Js.Thrown;
  socket_throws : History -> Socket -> SocketOp -> option Js.Thrown
}.

Definition Eff (A : Type) : Type := History -> History * Outcome A.

Definition ret {A} (a : A) : Eff A := fun h => (h, Ok a).

Definition throw {A} (e : Js.Thrown) : Eff A := fun h => (h, Throw e).

Definition bind {A B} (m : Eff A) (k : A -> Eff B) : Eff B :=
  fun h =>
    match m h with
    | (h', Ok a) => k a h'
    | (h', Throw e) => (h', Throw e)
    end.

Definition try_catch {A} (m : Eff A) (handler : Js.Thrown -> Eff A) : Eff A :=
  fun h =>
    match m h with
    | (h', Ok a) => (h', Ok a)
    | (h', Throw e) => handler e h'
    end.

Declare Scope eff_scope.
Delimit Scope eff_scope with eff.
Notation "x <- m ;; k" := (bind m (fun x => k))
  (at level 100, m at next level, right associativity) : eff_scope.
Notation "m ;; k" := (bind m (fun _ => k))
  (at level 100, right associativity) : eff_scope.
Local Open Scope eff_scope.

Definition emit (e : Effect) : Eff unit := fun h => (h ++ [e], Ok tt).

Definition console_error (args : list LogArg) : Eff unit :=
  emit (Console LogError args).

Definition console_log (args : list LogArg) : Eff unit :=
  emit (Console LogInfo args).

(** [c.json(obj, status)] *)
Definition c_json (fields : list (string * string)) (st : Z) : Response :=
  mkResponse st [("Content-Type", "application/json")] (BodyJson fields) None.

(** [c.redirect(location)]: 302 unless a status is given. *)
Definition c_redirect (location : string) : Response :=
  mkResponse 302 [("Location", location)] BodyNull None.

(** [new Response(text, { status })] *)
Definition text_response (text : string) (st : Z) : Response :=
  mkResponse st [("Content-Type", "text/plain;charset=UTF-8")] (BodyText text) None.

Section Worker.

Variable P : Platform.

(** [c.env.VPC_SERVICE.fetch(url, init)] *)
Definition fetch (url : string) (init : RequestInit) : Eff Response :=
  fun h => (h ++ [Fetch url init], vpc_fetch P h url init).

(** [await jwtVerify(token, createRemoteJWKSet(new URL(jwks_url)),
    { issuer, audience })] *)
Definition jwtVerify (token jwks_url issuer audience : string) : Eff unit :=
  fun h =>
    (h ++ [JwtVerify token jwks_url issuer audience],
     match jose_verify P h token jwks_url issuer audience with
     | None => Ok tt
     | Some e => Throw e
     end).

Definition socket_call (s : Socket) (op : SocketOp) : Eff unit :=
  fun h =>
    (h ++ [SocketCall s op],
     match socket_throws P h s op with
     | None => Ok tt
     | Some e => Throw e
     end).

(** ** src/middleware/auth.ts *)

(** The second half of the middleware, from the comment
    [// Fall back to user JWT authentication] to its end. *)
Definition user_jwt_authentication (env : Env) (req : Request)
  (next : Eff Response) : Eff Response :=
  let token := header req "cf-access-jwt-assertion" in
  if negb (Js.truthy token) then
    ret (c_json [("error", "Missing required CF Access JWT or service token")] 403)
  else
    let team := Js.or_else (CF_ACCESS_TEAM_NAME env) "" in
    try_catch
      (jwtVerify (Js.or_else token "")
                 ("https://" ++ team ++ "/cdn-cgi/access/certs")%string
                 ("https://" ++ team)%string
                 (Js.or_else (CF_ACCESS_AUD env) "") ;;
       next)
      (fun error =>
         let message :=
           if Js.instanceof_Error error then Js.message error
           else "Unknown error" in
         console_error [LStr "[Auth] JWT validation failed:"; LStr message] ;;
         ret (c_json [("error", "Invalid or expired token")] 403)).

Definition accessAuth (env : Env) (req : Request) (next : Eff Response)
  : Eff Response :=
  if negb (Js.truthy (CF_ACCESS_TEAM_NAME env)) then
    console_error [LStr "[Auth] CF_ACCESS_TEAM_NAME environment variable is not set"] ;;
    ret (c_json [("error", "Server configuration error")] 500)
  else if negb (Js.truthy (CF_ACCESS_AUD env)) then
    console_error [LStr "[Auth] CF_ACCESS_AUD secret is not set"] ;;
    ret (c_json [("error", "Server configuration error")] 500)
  else
    let clientId := header req "CF-Access-Client-Id" in
    let clientSecret := header req "CF-Access-Client-Secret" in
    if (Js.truthy clientId && Js.truthy clientSecret)%bool then
      if (Js.truthy (CF_ACCESS_CLIENT_ID env) &&
          Js.truthy (CF_ACCESS_CLIENT_SECRET env) &&
          Js.strict_eq clientId (CF_ACCESS_CLIENT_ID env) &&
          Js.strict_eq clientSecret (CF_ACCESS_CLIENT_SECRET env))%bool
      then
        console_log [LStr "[Auth] Service token validated successfully"] ;;
        next
      else
        console_error [LStr "[Auth] Invalid service token credentials"] ;;
        ret (c_json [("error", "Invalid service token")] 403)
    else
      user_jwt_authentication env req next.

(** ** src/index.ts *)

Definition backend : string := "http://localhost:18789".

(** [app.post("/v1/chat/completions", ..)] *)
Definition post_chat_completions (env : Env) (req : Request) : Eff Response :=
  if negb (Js.truthy (OPENCLAW_GATEWAY_TOKEN env)) then
    console_error [LStr "[Chat] OPENCLAW_GATEWAY_TOKEN secret is not set"] ;;
    ret (c_json [("error", "Server configuration error")] 500)
  else
    try_catch
      (let body := req_body req in
       response <-
         fetch (backend ++ "/v1/chat/completions")%string
               (mkInit (Some "POST")
                  [("Origin", backend);
                   ("Content-Type", "application/json");
                   ("Authorization",
                    ("Bearer " ++ Js.or_else (OPENCLAW_GATEWAY_TOKEN env) "")%string)]
                  (Some body)) ;;
       ret response)
      (fun e =>
         console_error [LStr "[Chat] Error:"; LThrown e] ;;
         ret (c_json [("error", "Failed to process chat request")] 500)).

(** [app.post("/tools/invoke", ..)] *)
Definition post_tools_invoke (env : Env) (req : Request) : Eff Response :=
  try_catch
    (let mergedHeaders := headers_set (req_headers req) "Origin" backend in
     fetch (backend ++ "/tools/invoke")%string
           (mkInit (Some "POST") mergedHeaders (Some (req_body req))))
    (fun e =>
       console_error [LStr "[Tools] Error:"; LThrown e] ;;
       ret (c_json [("error", "Failed to invoke tool")] 500)).

Definition origin_only : RequestInit :=
  mkInit None [("Origin", backend)] None.

(** [app.get("/app/assets/*", ..)] *)
Definition get_app_assets (env : Env) (req : Request) : Eff Response :=
  let assetPath := Js.replace "/app/assets" "/assets" (req_path req) in
  fetch (backend ++ assetPath)%string origin_only.

(** [app.get("/app/favicon.ico", ..)] *)
Definition get_app_favicon_ico (env : Env) (req : Request) : Eff Response :=
  fetch (backend ++ "/favicon.ico")%string origin_only.

(** [app.get("/app/favicon.svg", ..)] *)
Definition get_app_favicon_svg (env : Env) (req : Request) : Eff Response :=
  fetch (backend ++ "/favicon.svg")%string origin_only.

(** [app.get("/app/*", ..)] *)
Definition get_app (env : Env) (req : Request) : Eff Response :=
  fetch (backend ++ "/")%string origin_only.

(** [app.get("/assets/*", ..)] *)
Definition get_assets (env : Env) (req : Request) : Eff Response :=
  fetch (backend ++ req_path req)%string origin_only.

(** [new WebSocketPair()] and [Object.values] of it. *)
Definition new_WebSocketPair : Eff (Socket * Socket) :=
  emit NewWebSocketPair ;; ret (WsPair0, WsPair1).

(** [s.addEventListener(kind, l)] *)
Definition addEventListener (s : Socket) (kind : EventKind) (l : Listener)
  : Eff unit :=
  emit (SocketCall s (OpListen kind l)).

Definition upgrade_init (req : Request) : RequestInit :=
  mkInit None
    [("Origin", backend);
     ("Upgrade", "websocket");
     ("Connection", "Upgrade");
     ("Sec-WebSocket-Version", "13");
     ("Sec-WebSocket-Key",
      Js.or_else (header req "Sec-WebSocket-Key") "dGhlIHNhbXBsZSBub25jZQ==")]
    None.

(** [app.get("/", ..)] *)
Definition get_root (env : Env) (req : Request) : Eff Response :=
  let upgradeHeader := header req "Upgrade" in
  if Js.strict_eq upgradeHeader (Some "websocket") then
    try_catch
      (webSocketPair <- new_WebSocketPair ;;
       let '(client, server) := webSocketPair in
       openclawResponse <- fetch (backend ++ "/")%string (upgrade_init req) ;;
       match webSocket openclawResponse with
       | None =>
           console_error
             [LStr "[WS] Failed to establish WebSocket connection to OpenClaw"] ;;
           ret (text_response "Failed to connect to OpenClaw WebSocket" 502)
       | Some openclawWs =>
           socket_call server OpAccept ;;
           socket_call openclawWs OpAccept ;;
           addEventListener server KMessage (server_message openclawWs) ;;
           addEventListener server KClose (server_close openclawWs) ;;
           addEventListener server KError (server_error openclawWs) ;;
           addEventListener openclawWs KMessage (openclaw_message server) ;;
           addEventListener openclawWs KClose (openclaw_close server) ;;
           addEventListener openclawWs KError (openclaw_error server) ;;
           ret (mkResponse 101 [] BodyNull (Some client))
       end)
      (fun error =>
         console_error [LStr "[WS] WebSocket proxy error:"; LThrown error] ;;
         ret (text_response
                ("WebSocket proxy error: " ++ Js.to_string error)%string 502))
  else ret (c_redirect "/app").

(** The bodies of the six listeners. *)
Definition run_listener (l : Listener) (event : Event) : Eff unit :=
  match l, event with
  | server_message openclawWs, MessageEvent data =>
      try_catch (socket_call openclawWs (OpSend data))
        (fun e => console_error [LStr "[WS] Error forwarding to OpenClaw:"; LThrown e])
  | server_close openclawWs, CloseEvent code reason =>
      try_catch (socket_call openclawWs (OpClose code reason)) (fun _ => ret tt)
  | server_error openclawWs, _ =>
      try_catch (socket_call openclawWs (OpClose 1011 "Client error")) (fun _ => ret tt)
  | openclaw_message server, MessageEvent data =>
      try_catch (socket_call server (OpSend data))
        (fun e => console_error [LStr "[WS] Error forwarding to client:"; LThrown e])
  | openclaw_close server, CloseEvent code reason =>
      try_catch (socket_call server (OpClose code reason)) (fun _ => ret tt)
  | openclaw_error server, _ =>
      try_catch (socket_call server (OpClose 1011 "Server error")) (fun _ => ret tt)
  | _, _ => ret tt
  end.

(** [app.all("*", ..)] *)
Definition all_not_found (env : Env) (req : Request) : Eff Response :=
  console_log [LStr ("[404] Unmatched route: " ++ req_method req ++ " " ++ req_path req)%string] ;;
  ret (c_json [("error", "Not found")] 404).

(** [app.onError(..)] *)
Definition onError (err : Js.Thrown) : Eff Response :=
  console_error [LStr ("[Error] Unhandled: " ++ Js.message err)%string] ;;
  ret (c_json [("error", "Internal server error")] 500).

(** ** The router

    Hono runs the handlers registered for a request in registration
    order; a handler that returns a response without calling [next] ends
    the chain.  A pattern ending in a wildcard segment also matches the
    path without that segment.

    The framework dispatches a HEAD request as a GET ([dispatch_method]);
    that it afterwards drops the body of the answer is outside this
    model, as is its decoding of percent escapes: [req_path] is the
    pathname as the router and the handlers both see it, which is the
    case of a pathname without percent escapes ([plain_path]). *)

Definition dispatch_method (req : Request) : string :=
  if String.eqb (req_method req) "HEAD" then "GET" else req_method req.

Fixpoint plain_path (path : string) : bool :=
  match path with
  | EmptyString => true
  | String c rest => (negb (Ascii.eqb c "%") && plain_path rest)%bool
  end.

Fixpoint wildcard_prefix (pattern : string) : option string :=
  if String.eqb pattern "/*" then Some ""
  else match pattern with
       | EmptyString => None
       | String c r => option_map (String c) (wildcard_prefix r)
       end.

Definition route_match (pattern path : string) : bool :=
  if String.eqb pattern "*" then true
  else match wildcard_prefix pattern with
       | Some prefix =>
           (String.eqb path prefix || Js.starts_with (prefix ++ "/")%string path)%bool
       | None => String.eqb pattern path
       end.

Definition Handler := Env -> Request -> Eff Response.

Definition routes : list (option string * string * Handler) :=
  [ (Some "POST", "/v1/chat/completions", post_chat_completions);
    (Some "POST", "/tools/invoke", post_tools_invoke);
    (Some "GET", "/app/assets/*", get_app_assets);
    (Some "GET", "/app/favicon.ico", get_app_favicon_ico);
    (Some "GET", "/app/favicon.svg", get_app_favicon_svg);
    (Some "GET", "/app/*", get_app);
    (Some "GET", "/assets/*", get_assets);
    (Some "GET", "/", get_root);
    (None, "*", all_not_found) ].

Definition route_applies (req : Request) (r : option string * string * Handler)
  : bool :=
  let '(m, pattern, _) := r in
  (match m with
   | Some m => String.eqb m (dispatch_method req)
   | None => true
   end && route_match pattern (req_path req))%bool.

(** An [Error] thrown by a handler goes to [onError]; anything else is
    thrown on. *)
Definition guarded (m : Eff Response) : Eff Response :=
  try_catch m
    (fun err => if Js.instanceof_Error err then onError err else throw err).

Definition route (env : Env) (req : Request) : Eff Response :=
  match find (route_applies req) routes with
  | Some (_, _, handler) => guarded (handler env req)
  | None => ret (text_response "404 Not Found" 404)
  end.

(** [app.use("*", accessAuth)] in front of the routes. *)
Definition app (env : Env) (req : Request) : Eff Response :=
  guarded (accessAuth env req (route env req)).

(** ** Delivery of socket events

    The listeners of a socket are those registered on it so far, in
    registration order; the runtime calls each one registered for the
    kind of the event.  An exception that escapes a listener does not
    stop the delivery: the runtime reports it, which the history records
    as [UncaughtException], and goes on with the next listener. *)

Fixpoint listeners_on (h : History) (s : Socket) (kind : EventKind)
  : list Listener :=
  match h with
  | [] => []
  | SocketCall s' (OpListen kind' l) :: rest =>
      if (socket_eqb s' s && kind_eqb kind' kind)%bool
      then l :: listeners_on rest s kind
      else listeners_on rest s kind
  | _ :: rest => listeners_on rest s kind
  end.

Fixpoint run_listeners (ls : list Listener) (event : Event) : Eff unit :=
  match ls with
  | [] => ret tt
  | l :: rest =>
      try_catch (run_listener l event) (fun e => emit (UncaughtException e)) ;;
      run_listeners rest event
  end.

Definition deliver (s : Socket) (event : Event) : Eff unit :=
  fun h => run_listeners (listeners_on h s (event_kind event)) event h.

End Worker.

(** ** Vocabulary of the statements *)

Definition config_fault_body : list (string * string) :=
  [("error", "Server configuration error")].

Definition invalid_service_token : Response :=
  c_json [("error", "Invalid service token")] 403.

Definition missing_credential : Response :=
  c_json [("error", "Missing required CF Access JWT or service token")] 403.

(** Team domain and audience are both configured. *)
Definition config_ok (env : Env) : bool :=
  (Js.truthy (CF_ACCESS_TEAM_NAME env) && Js.truthy (CF_ACCESS_AUD env))%bool.

(** Both service-token headers are present with non-empty values. *)
Definition presents_service_token (req : Request) : bool :=
  (Js.truthy (header req "CF-Access-Client-Id") &&
   Js.truthy (header req "CF-Access-Client-Secret"))%bool.

(** The configured id and secret are both set and equal the presented ones. *)
Definition service_token_matches (env : Env) (req : Request) : bool :=
  (Js.truthy (CF_ACCESS_CLIENT_ID env) &&
   Js.truthy (CF_ACCESS_CLIENT_SECRET env) &&
   Js.strict_eq (header req "CF-Access-Client-Id") (CF_ACCESS_CLIENT_ID env) &&
   Js.strict_eq (header req "CF-Access-Client-Secret") (CF_ACCESS_CLIENT_SECRET env))%bool.

(** The call the bearer-assertion path makes to the verification library. *)
Definition jwt_check (env : Env) (req : Request) : Effect :=
  let team := Js.or_else (CF_ACCESS_TEAM_NAME env) "" in
  JwtVerify (Js.or_else (header req "cf-access-jwt-assertion") "")
            ("https://" ++ team ++ "/cdn-cgi/access/certs")%string
            ("https://" ++ team)%string
            (Js.or_else (CF_ACCESS_AUD env) "").

(** The library accepts the assertion of the request when asked after [h]. *)
Definition jwt_accepted (P : Platform) (env : Env) (req : Request) (h : History)
  : bool :=
  match jwt_check env req with
  | JwtVerify token url issuer audience =>
      (Js.truthy (header req "cf-access-jwt-assertion") &&
       match jose_verify P h token url issuer audience with
       | None => true
       | Some _ => false
       end)%bool
  | _ => false
  end.

(** An authenticated request: the configuration is complete and the
    credential the request presents (the service token when both its headers
    are there, the bearer assertion otherwise) is good. *)
Definition authenticated (P : Platform) (env : Env) (req : Request) (h : History)
  : bool :=
  (config_ok env &&
   if presents_service_token req then service_token_matches env req
   else jwt_accepted P env req h)%bool.

(** What the middleware does before it hands an authenticated request on. *)
Definition gate_trace (env : Env) (req : Request) : list Effect :=
  if presents_service_token req
  then [Console LogInfo [LStr "[Auth] Service token validated successfully"]]
  else [jwt_check env req].

Definition is_fetch (e : Effect) : bool :=
  match e with
  | Fetch _ _ => true
  | _ => false
  end.

Definition is_jwt_verify (e : Effect) : bool :=
  match e with
  | JwtVerify _ _ _ _ => true
  | _ => false
  end.

Definition is_socket_effect (e : Effect) : bool :=
  match e with
  | NewWebSocketPair | SocketCall _ _ => true
  | _ => false
  end.

Definition is_accept (e : Effect) : bool :=
  match e with
  | SocketCall _ OpAccept => true
  | _ => false
  end.

(** No listener at all is registered in a stretch of history. *)
Definition no_listeners (tr : History) : Prop :=
  forall s kind, listeners_on tr s kind = [].

Definition is_service_token_header (kv : string * string) : bool :=
  (same_name (fst kv) "CF-Access-Client-Id" ||
   same_name (fst kv) "CF-Access-Client-Secret")%bool.

(** The request with its service-token headers taken out. *)
Definition without_service_token (req : Request) : Request :=
  mkRequest (req_method req) (req_path req)
            (filter (fun kv => negb (is_service_token_header kv)) (req_headers req))
            (req_body req).

Definition tools_call (req : Request) : string * RequestInit :=
  ((backend ++ "/tools/invoke")%string,
   mkInit (Some "POST") (headers_set (req_headers req) "Origin" backend)
          (Some (req_body req))).

Definition upgrade_call (req : Request) : string * RequestInit :=
  ((backend ++ "/")%string, upgrade_init req).

(** The six registrations, in the order of the source. *)
Definition bridge_listeners (server openclawWs : Socket) : list Effect :=
  [SocketCall server (OpListen KMessage (server_message openclawWs));
   SocketCall server (OpListen KClose (server_close openclawWs));
   SocketCall server (OpListen KError (server_error openclawWs));
   SocketCall openclawWs (OpListen KMessage (openclaw_message server));
   SocketCall openclawWs (OpListen KClose (openclaw_close server));
   SocketCall openclawWs (OpListen KError (openclaw_error server))].

Definition proxy_error (error : Js.Thrown) : list Effect * Response :=
  ([Console LogError [LStr "[WS] WebSocket proxy error:"; LThrown error]],
   text_response ("WebSocket proxy error: " ++ Js.to_string error)%string 502).

Definition switching_protocols (client : Socket) : Response :=
  mkResponse 101 [] BodyNull (Some client).

(** The root handler, run after [h], answered 101 with the client half of
    the pair and left the history [h']; [openclawWs] is the socket the
    backend handed over. *)
Definition bridge_established (P : Platform) (env : Env) (req : Request)
  (h h' : History) (openclawWs : Socket) : Prop :=
  get_root P env req h = (h', Ok (switching_protocols WsPair0)) /\
  exists r,
    vpc_fetch P (h ++ [NewWebSocketPair])
              (fst (upgrade_call req)) (snd (upgrade_call req)) = Ok r /\
    webSocket r = Some openclawWs.

(** ** The earlier text of the middleware

    src/middleware/auth.ts also holds the middleware as it was before
    service tokens (lines 15-61 of the file): the same two configuration
    guards, then the bearer assertion alone. *)
Definition accessAuth_jwt_only (P : Platform) (env : Env) (req : Request)
  (next : Eff Response) : Eff Response :=
  if negb (Js.truthy (CF_ACCESS_TEAM_NAME env)) then
    console_error [LStr "[Auth] CF_ACCESS_TEAM_NAME environment variable is not set"] ;;
    ret (c_json [("error", "Server configuration error")] 500)
  else if negb (Js.truthy (CF_ACCESS_AUD env)) then
    console_error [LStr "[Auth] CF_ACCESS_AUD secret is not set"] ;;
    ret (c_json [("error", "Server configuration error")] 500)
  else
    let token := header req "cf-access-jwt-assertion" in
    if negb (Js.truthy token) then
      ret (c_json [("error", "Missing required CF Access JWT")] 403)
    else
      let team := Js.or_else (CF_ACCESS_TEAM_NAME env) "" in
      try_catch
        (jwtVerify P (Js.or_else token "")
                   ("https://" ++ team ++ "/cdn-cgi/access/certs")%string
                   ("https://" ++ team)%string
                   (Js.or_else (CF_ACCESS_AUD env) "") ;;
         next)
        (fun error =>
           let message :=
             if Js.instanceof_Error error then Js.message error
             else "Unknown error" in
           console_error [LStr "[Auth] JWT validation failed:"; LStr message] ;;
           ret (c_json [("error", "Invalid or expired token")] 403)).

(** ** More vocabulary *)

Definition invalid_or_expired : Response :=
  c_json [("error", "Invalid or expired token")] 403.

Definition internal_server_error : Response :=
  c_json [("error", "Internal server error")] 500.

Definition not_found : Response :=
  c_json [("error", "Not found")] 404.

(** The console line of the middleware's catch branch. *)
Definition jwt_failure_log (error : Js.Thrown) : Effect :=
  Console LogError
    [LStr "[Auth] JWT validation failed:";
     LStr (if Js.instanceof_Error error then Js.message error else "Unknown error")].

(** The outbound request of the chat route, for a gateway token and a body. *)
Definition chat_call (gateway_token payload : string) : string * RequestInit :=
  ("http://localhost:18789/v1/chat/completions",
   mkInit (Some "POST")
     [("Origin", "http://localhost:18789");
      ("Content-Type", "application/json");
      ("Authorization", ("Bearer " ++ gateway_token)%string)]
     (Some payload)).

Definition call_effect (call : string * RequestInit) : Effect :=
  Fetch (fst call) (snd call).

(** What the verification library says about the assertion of the request
    when asked after [h]: nothing, or the value it throws. *)
Definition jwt_verdict (P : Platform) (env : Env) (req : Request) (h : History)
  : option Js.Thrown :=
  let team := Js.or_else (CF_ACCESS_TEAM_NAME env) "" in
  jose_verify P h (Js.or_else (header req "cf-access-jwt-assertion") "")
              ("https://" ++ team ++ "/cdn-cgi/access/certs")%string
              ("https://" ++ team)%string
              (Js.or_else (CF_ACCESS_AUD env) "").

(** A message relayed to [dest]: the [send], and the console line when the
    [send] throws. *)
Definition relay_trace (P : Platform) (now : History) (dest : Socket)
  (tag data : string) : list Effect :=
  SocketCall dest (OpSend data) ::
  match socket_throws P now dest (OpSend data) with
  | None => []
  | Some e => [Console LogError [LStr tag; LThrown e]]
  end.

Definition is_close (e : Effect) : bool :=
  match e with
  | SocketCall _ (OpClose _ _) => true
  | _ => false
  end.

(** A GET request for one of the five routes that fetch a page or an asset. *)
Definition asset_route (req : Request) : bool :=
  (String.eqb "GET" (req_method req) &&
   (route_match "/app/assets/*" (req_path req) ||
    route_match "/app/favicon.ico" (req_path req) ||
    route_match "/app/favicon.svg" (req_path req) ||
    route_match "/app/*" (req_path req) ||
    route_match "/assets/*" (req_path req)))%bool.

(** ** Concrete configurations, requests and platforms *)

Module Samples.

Definition env_full : Env :=
  mkEnv (Some "team.cloudflareaccess.com") (Some "aud-tag")
        (Some "svc-id") (Some "svc-secret") (Some "gateway-token").

Definition env_no_team : Env :=
  mkEnv None (Some "aud-tag") (Some "svc-id") (Some "svc-secret")
        (Some "gateway-token").

Definition env_no_service_token : Env :=
  mkEnv (Some "team.cloudflareaccess.com") (Some "aud-tag") None None
        (Some "gateway-token").

Definition env_no_gateway_token : Env :=
  mkEnv (Some "team.cloudflareaccess.com") (Some "aud-tag")
        (Some "svc-id") (Some "svc-secret") None.

Definition service_headers : Headers :=
  [("CF-Access-Client-Id", "svc-id"); ("CF-Access-Client-Secret", "svc-secret")].

Definition get_with (path : string) (hs : Headers) : Request :=
  mkRequest "GET" path hs "".

Definition post_with (path : string) (hs : Headers) (payload : string) : Request :=
  mkRequest "POST" path hs payload.

(** A service token together with a bearer assertion. *)
Definition both_credentials : Request :=
  get_with "/" (service_headers ++ [("cf-access-jwt-assertion", "header.payload.sig")]).

(** An empty client id, a secret, no bearer assertion. *)
Definition empty_client_id : Request :=
  get_with "/" [("CF-Access-Client-Id", ""); ("CF-Access-Client-Secret", "svc-secret")].

Definition upgrade_request : Request :=
  get_with "/" (service_headers ++ [("Upgrade", "websocket")]).

Definition backend_ok : Response :=
  mkResponse 200 [("Content-Type", "application/json")] (BodyText "ok") None.

Definition backend_switching : Response :=
  mkResponse 101 [] BodyNull (Some (WsUpstream 0)).

(** A backend that answers every fetch with [r], a verification library
    that accepts every assertion, sockets that never throw. *)
Definition answering (r : Response) : Platform :=
  mkPlatform (fun _ _ _ => Ok r) (fun _ _ _ _ _ => None) (fun _ _ _ => None).

(** A backend whose fetch always throws [e]. *)
Definition failing (e : Js.Thrown) : Platform :=
  mkPlatform (fun _ _ _ => Throw e) (fun _ _ _ _ _ => None) (fun _ _ _ => None).

(** Sockets on which every [close] throws. *)
Definition close_throws (r : Response) : Platform :=
  mkPlatform (fun _ _ _ => Ok r) (fun _ _ _ _ _ => None)
    (fun _ _ op =>
       match op with
       | OpClose _ _ => Some (Js.ErrorObj "InvalidAccessError" "bad close code")
       | _ => None
       end).

Definition marker : Response :=
  mkResponse 204 [] BodyNull None.

(** A bearer assertion alone. *)
Definition assertion_request (m path : string) : Request :=
  mkRequest m path [("cf-access-jwt-assertion", "header.payload.sig")] "{}".

(** A verification library that rejects every assertion with [e]. *)
Definition rejecting (e : Js.Thrown) : Platform :=
  mkPlatform (fun _ _ _ => Ok backend_ok) (fun _ _ _ _ _ => Some e)
             (fun _ _ _ => None).

(** Sockets on which every [send] throws. *)
Definition send_throws (r : Response) : Platform :=
  mkPlatform (fun _ _ _ => Ok r) (fun _ _ _ _ _ => None)
    (fun _ _ op =>
       match op with
       | OpSend _ => Some (Js.ErrorObj "TypeError" "socket is closed")
       | _ => None
       end).

End Samples.

(** ** The definitions at work *)

Example header_names_ignore_case :
  headers_get [("cf-access-client-id", "svc-id")] "CF-Access-Client-Id" = Some "svc-id".
Proof. reflexivity. Qed.

Example header_values_are_joined :
  headers_get [("Upgrade", "websocket"); ("upgrade", "h2c")] "Upgrade" =
  Some "websocket, h2c".
Proof. reflexivity. Qed.

Example headers_set_replaces :
  headers_set [("origin", "https://example.com"); ("Accept", "*/*")] "Origin" backend =
  [("Accept", "*/*"); ("Origin", "http://localhost:18789")].
Proof. reflexivity. Qed.

Example wildcard_routes :
  route_match "/app/*" "/app/chat" = true /\
  route_match "/app/*" "/app" = true /\
  route_match "/app/*" "/application" = false /\
  route_match "/tools/invoke" "/tools/invoke/" = false /\
  route_match "*" "/unknown/path" = true.
Proof. repeat split; reflexivity. Qed.

Example asset_path_is_rewritten :
  fst (get_app_assets (Samples.answering Samples.backend_ok) Samples.env_full
         (Samples.get_with "/app/assets/index.js" []) []) =
  [Fetch "http://localhost:18789/assets/index.js" origin_only].
Proof. reflexivity. Qed.

Example unknown_path_is_not_found :
  snd (app (Samples.answering Samples.backend_ok) Samples.env_full
         (Samples.get_with "/unknown/path" Samples.service_headers) []) =
  Ok (c_json [("error", "Not found")] 404).
Proof. reflexivity. Qed.

Example error_to_string :
  Js.to_string (Js.ErrorObj "Error" "boom") = "Error: boom" /\
  Js.to_string (Js.Primitive "boom") = "boom".
Proof. split; reflexivity. Qed.

(** A matching service token authenticates without any bearer assertion,
    and the upgrade then goes through to the 101 answer. *)
Example upgrade_goes_through :
  snd (app (Samples.answering Samples.backend_switching) Samples.env_full
         Samples.upgrade_request []) =
  Ok (switching_protocols WsPair0).
Proof. reflexivity. Qed.

(** ** Basic facts about the monad *)

Lemma bind_emit {A} (e : Effect) (k : Eff A) (h : History) :
  (emit e ;; k) h = k (h ++ [e]).
Proof. reflexivity. Qed.

Lemma bind_ret {A B} (a : A) (k : A -> Eff B) (h : History) :
  (x <- ret a ;; k x) h = k a h.
Proof. reflexivity. Qed.

Lemma try_catch_ok {A} (m : Eff A) (handler : Js.Thrown -> Eff A) h h' a :
  m h = (h', Ok a) -> try_catch m handler h = (h', Ok a).
Proof. unfold try_catch. intros ->. reflexivity. Qed.

Lemma guarded_ok (m : Eff Response) h h' r :
  m h = (h', Ok r) -> guarded m h = (h', Ok r).
Proof. apply try_catch_ok. Qed.

Lemma listeners_on_app (a b : History) s kind :
  listeners_on (a ++ b) s kind = listeners_on a s kind ++ listeners_on b s kind.
Proof.
  induction a as [|e a IH]; simpl; [reflexivity|].
  destruct e as [| | | |s' op|]; try exact IH.
  destruct op; try exact IH.
  destruct (socket_eqb s' s && kind_eqb kind0 kind)%bool; simpl; now rewrite IH.
Qed.

(** ** The middleware *)

(** An authenticated request reaches [next], right after [gate_trace]. *)
Lemma accessAuth_admits (P : Platform) env req (next : Eff Response) h h' r :
  authenticated P env req h = true ->
  next (h ++ gate_trace env req) = (h', Ok r) ->
  accessAuth P env req next h = (h', Ok r).
Proof.
  unfold authenticated, config_ok, gate_trace, accessAuth.
  destruct (Js.truthy (CF_ACCESS_TEAM_NAME env)); [|discriminate].
  destruct (Js.truthy (CF_ACCESS_AUD env)); [|discriminate].
  cbn [andb negb].
  unfold presents_service_token.
  destruct (Js.truthy (header req "CF-Access-Client-Id") &&
            Js.truthy (header req "CF-Access-Client-Secret"))%bool.
  - unfold service_token_matches. intros ->. intros Hn.
    unfold console_log. rewrite bind_emit. exact Hn.
  - unfold jwt_accepted, jwt_check, user_jwt_authentication.
    destruct (Js.truthy (header req "cf-access-jwt-assertion")); [|discriminate].
    cbn [andb negb]. intros Hj Hn.
    apply try_catch_ok. unfold bind, jwtVerify.
    destruct (jose_verify P h _ _ _ _); [discriminate|]. exact Hn.
Qed.

Lemma app_admits (P : Platform) env req h h' r :
  authenticated P env req h = true ->
  route P env req (h ++ gate_trace env req) = (h', Ok r) ->
  app P env req h = (h', Ok r).
Proof.
  intros Ha Hr. unfold app. apply guarded_ok.
  now apply accessAuth_admits.
Qed.

(** ** Configuration faults *)

(** C4.  When the team domain is absent, or the audience is absent
    (undefined, or the empty string, which the guard treats alike), every
    request, whatever its route and credentials, is answered with status 500
    and the body [{error: "Server configuration error"}]; the middleware
    answers by itself, whatever comes after it is never run, and the only
    effect is one line on the error console. *)
Theorem config_fault_answers_every_request
  (P : Platform) (env : Env) (req : Request) (h : History) :
  Js.truthy (CF_ACCESS_TEAM_NAME env) = false \/
  Js.truthy (CF_ACCESS_AUD env) = false ->
  exists line,
    (forall next : Eff Response,
        accessAuth P env req next h =
          (h ++ [Console LogError [LStr line]], Ok (c_json config_fault_body 500))) /\
    app P env req h =
      (h ++ [Console LogError [LStr line]], Ok (c_json config_fault_body 500)).
Proof.
  intros H.
  assert (Hmw : exists line, forall next : Eff Response,
               accessAuth P env req next h =
                 (h ++ [Console LogError [LStr line]],
                  Ok (c_json config_fault_body 500))).
  { unfold accessAuth.
    destruct (Js.truthy (CF_ACCESS_TEAM_NAME env)) eqn:Ht.
    - destruct H as [H|H]; [discriminate|]. rewrite H.
      eexists. intros next. reflexivity.
    - eexists. intros next. reflexivity. }
  destruct Hmw as [line Hmw]. exists line. split; [exact Hmw|].
  unfold app. apply guarded_ok. apply Hmw.
Qed.

Lemma config_fault_answers_every_request_witness :
  exists line,
    (forall next : Eff Response,
        accessAuth (Samples.answering Samples.backend_ok) Samples.env_no_team
                   Samples.both_credentials next [] =
          ([] ++ [Console LogError [LStr line]], Ok (c_json config_fault_body 500))) /\
    app (Samples.answering Samples.backend_ok) Samples.env_no_team
        Samples.both_credentials [] =
      ([] ++ [Console LogError [LStr line]], Ok (c_json config_fault_body 500)).
Proof.
  apply (config_fault_answers_every_request
           (Samples.answering Samples.backend_ok) Samples.env_no_team
           Samples.both_credentials []).
  left. reflexivity.
Defined.

(** ** The service-token path *)

(** C1, as amended.  When team domain and audience are configured, a
    request whose two service-token headers are both present and non-empty
    is decided on the service-token path alone: if the configured id and
    secret are set and equal the presented values the request is handed on
    (authenticated), otherwise it is rejected with 403 and the
    invalid-service-token body.  The verification library is not consulted:
    the outcome is the same on every platform, whatever assertion header
    the request carries. *)
Theorem service_token_decides_alone
  (P : Platform) (env : Env) (req : Request) (next : Eff Response) (h : History) :
  config_ok env = true ->
  presents_service_token req = true ->
  accessAuth P env req next h =
    (if service_token_matches env req
     then next (h ++ [Console LogInfo [LStr "[Auth] Service token validated successfully"]])
     else (h ++ [Console LogError [LStr "[Auth] Invalid service token credentials"]],
           Ok invalid_service_token)) /\
  (forall P' : Platform, accessAuth P' env req next h = accessAuth P env req next h).
Proof.
  unfold config_ok, presents_service_token, service_token_matches.
  intros Hc Hp.
  apply andb_true_iff in Hc. destruct Hc as [Ht Ha].
  assert (E : forall Q : Platform,
             accessAuth Q env req next h =
               (if (Js.truthy (CF_ACCESS_CLIENT_ID env) &&
                    Js.truthy (CF_ACCESS_CLIENT_SECRET env) &&
                    Js.strict_eq (header req "CF-Access-Client-Id") (CF_ACCESS_CLIENT_ID env) &&
                    Js.strict_eq (header req "CF-Access-Client-Secret")
                                 (CF_ACCESS_CLIENT_SECRET env))%bool
                then next (h ++ [Console LogInfo [LStr "[Auth] Service token validated successfully"]])
                else (h ++ [Console LogError [LStr "[Auth] Invalid service token credentials"]],
                      Ok invalid_service_token))).
  { intros Q. unfold accessAuth. rewrite Ht, Ha, Hp. cbn [negb].
    destruct (_ && _ && _ && _)%bool; reflexivity. }
  split; [apply E|]. intros P'. now rewrite !E.
Qed.

Lemma service_token_decides_alone_witness :
  accessAuth (Samples.answering Samples.backend_ok) Samples.env_no_service_token
             Samples.both_credentials (ret Samples.marker) [] =
    ([Console LogError [LStr "[Auth] Invalid service token credentials"]],
     Ok invalid_service_token).
Proof.
  apply (service_token_decides_alone
           (Samples.answering Samples.backend_ok) Samples.env_no_service_token
           Samples.both_credentials (ret Samples.marker) []); reflexivity.
Defined.

(** C1 as stated fails without its proviso: with a matching service token
    but no team domain the answer is the configuration fault, neither the
    hand-over to [next] nor the 403. *)
Lemma service_token_without_team_domain :
  presents_service_token Samples.both_credentials = true /\
  accessAuth (Samples.answering Samples.backend_ok) Samples.env_no_team
             Samples.both_credentials (ret Samples.marker) [] =
    ([Console LogError [LStr "[Auth] CF_ACCESS_TEAM_NAME environment variable is not set"]],
     Ok (c_json config_fault_body 500)) /\
  accessAuth (Samples.answering Samples.backend_ok) Samples.env_no_team
             Samples.both_credentials (ret Samples.marker) [] <>
    (if service_token_matches Samples.env_no_team Samples.both_credentials
     then ret Samples.marker
            ([] ++ [Console LogInfo [LStr "[Auth] Service token validated successfully"]])
     else ([] ++ [Console LogError [LStr "[Auth] Invalid service token credentials"]],
           Ok invalid_service_token)).
Proof.
  split; [reflexivity|]. split; [reflexivity|].
  vm_compute. discriminate.
Qed.

(** C2, as amended.  When the service-token configuration is unset (the
    configured id or the configured secret is missing) and team domain and
    audience are configured, the service-token path is not disabled: a
    request presenting both service-token headers is rejected with 403 and
    the invalid-service-token body, and the bearer assertion is not
    looked at. *)
Theorem unset_service_token_config_rejects
  (P : Platform) (env : Env) (req : Request) (next : Eff Response) (h : History) :
  config_ok env = true ->
  Js.truthy (CF_ACCESS_CLIENT_ID env) = false \/
  Js.truthy (CF_ACCESS_CLIENT_SECRET env) = false ->
  presents_service_token req = true ->
  accessAuth P env req next h =
    (h ++ [Console LogError [LStr "[Auth] Invalid service token credentials"]],
     Ok invalid_service_token).
Proof.
  unfold config_ok, presents_service_token. intros Hc Hu Hp.
  apply andb_true_iff in Hc. destruct Hc as [Ht Ha].
  unfold accessAuth. rewrite Ht, Ha, Hp. cbn [negb].
  destruct Hu as [Hu|Hu]; rewrite Hu.
  - reflexivity.
  - rewrite andb_false_r. reflexivity.
Qed.

Lemma unset_service_token_config_rejects_witness :
  accessAuth (Samples.answering Samples.backend_ok) Samples.env_no_service_token
             Samples.both_credentials (ret Samples.marker) [] =
    ([] ++ [Console LogError [LStr "[Auth] Invalid service token credentials"]],
     Ok invalid_service_token).
Proof.
  apply (unset_service_token_config_rejects
           (Samples.answering Samples.backend_ok) Samples.env_no_service_token
           Samples.both_credentials (ret Samples.marker) []).
  - reflexivity.
  - left. reflexivity.
  - reflexivity.
Defined.

(** C2 as stated fails: no service token is configured, the request carries
    service-token headers and an assertion the library accepts.  The
    bearer-assertion check would let the request through; the middleware
    rejects it on the service-token path and the library is never asked. *)
Lemma unset_service_token_config_does_not_fall_through :
  CF_ACCESS_CLIENT_ID Samples.env_no_service_token = None /\
  CF_ACCESS_CLIENT_SECRET Samples.env_no_service_token = None /\
  presents_service_token Samples.both_credentials = true /\
  user_jwt_authentication (Samples.answering Samples.backend_ok)
    Samples.env_no_service_token Samples.both_credentials (ret Samples.marker) [] =
    ([jwt_check Samples.env_no_service_token Samples.both_credentials],
     Ok Samples.marker) /\
  accessAuth (Samples.answering Samples.backend_ok) Samples.env_no_service_token
             Samples.both_credentials (ret Samples.marker) [] =
    ([Console LogError [LStr "[Auth] Invalid service token credentials"]],
     Ok invalid_service_token) /\
  existsb is_jwt_verify
    (fst (accessAuth (Samples.answering Samples.backend_ok)
            Samples.env_no_service_token Samples.both_credentials
            (ret Samples.marker) [])) = false /\
  accessAuth (Samples.answering Samples.backend_ok) Samples.env_no_service_token
             Samples.both_credentials (ret Samples.marker) [] <>
  user_jwt_authentication (Samples.answering Samples.backend_ok)
    Samples.env_no_service_token Samples.both_credentials (ret Samples.marker) [].
Proof.
  repeat split; try reflexivity.
  vm_compute. discriminate.
Qed.

(** ** Empty service-token headers *)

Lemma filter_filter_keep {A} (f g : A -> bool) (l : list A) :
  (forall x, f x = true -> g x = true) ->
  filter f (filter g l) = filter f l.
Proof.
  intros Hfg. induction l as [|x l IH]; simpl; [reflexivity|].
  destruct (f x) eqn:Hf.
  - rewrite (Hfg x Hf). simpl. rewrite Hf. now rewrite IH.
  - destruct (g x); simpl; [rewrite Hf|]; exact IH.
Qed.

Lemma filter_filter_drop {A} (f g : A -> bool) (l : list A) :
  (forall x, f x = true -> g x = false) ->
  filter f (filter g l) = [].
Proof.
  intros Hfg. induction l as [|x l IH]; simpl; [reflexivity|].
  destruct (g x) eqn:Hg; simpl; [|exact IH].
  destruct (f x) eqn:Hf; [|exact IH].
  rewrite (Hfg x Hf) in Hg. discriminate.
Qed.

Lemma without_service_token_keeps_assertion (req : Request) :
  header (without_service_token req) "cf-access-jwt-assertion" =
  header req "cf-access-jwt-assertion".
Proof.
  unfold header, headers_get, without_service_token. cbn [req_headers].
  rewrite filter_filter_keep; [reflexivity|].
  intros [name value]. unfold is_service_token_header, same_name. cbn [fst].
  intros E. apply String.eqb_eq in E. rewrite E. reflexivity.
Qed.

Lemma without_service_token_drops (req : Request) :
  header (without_service_token req) "CF-Access-Client-Id" = None /\
  header (without_service_token req) "CF-Access-Client-Secret" = None.
Proof.
  unfold header, headers_get, without_service_token. cbn [req_headers].
  split; rewrite filter_filter_drop; try reflexivity;
    intros [name value]; unfold is_service_token_header, same_name; cbn [fst];
    intros E; rewrite E; [reflexivity|]; rewrite orb_true_r; reflexivity.
Qed.

(** A request that does not present both service-token headers is treated
    like the same request without any, under every configuration. *)
Lemma accessAuth_ignores_partial_service_token
  (P : Platform) env req (next : Eff Response) h :
  presents_service_token req = false ->
  accessAuth P env req next h = accessAuth P env (without_service_token req) next h.
Proof.
  unfold presents_service_token. intros Hp. unfold accessAuth.
  destruct (without_service_token_drops req) as [-> _].
  unfold user_jwt_authentication.
  rewrite Hp, without_service_token_keeps_assertion. reflexivity.
Qed.

(** C9, as amended.  When team domain and audience are configured, a
    request in which either service-token header is present with an empty
    value has no service-token credential: the middleware goes on to the
    bearer-assertion path, which answers the missing-credential 403 when
    the assertion header is absent or empty, and the request is never
    rejected as an invalid service token.  It is treated exactly like the
    same request with the service-token headers removed. *)
Theorem empty_service_token_header_falls_through
  (P : Platform) (env : Env) (req : Request) (next : Eff Response) (h : History) :
  header req "CF-Access-Client-Id" = Some "" \/
  header req "CF-Access-Client-Secret" = Some "" ->
  config_ok env = true ->
  presents_service_token req = false /\
  accessAuth P env req next h = user_jwt_authentication P env req next h /\
  accessAuth P env req next h = accessAuth P env (without_service_token req) next h /\
  (Js.truthy (header req "cf-access-jwt-assertion") = false ->
   accessAuth P env req next h = (h, Ok missing_credential)).
Proof.
  intros He Hc.
  assert (Hp : presents_service_token req = false).
  { unfold presents_service_token.
    destruct He as [-> | ->]; cbn [Js.truthy Js.is_empty negb andb];
      [reflexivity | apply andb_false_r]. }
  assert (Hj : accessAuth P env req next h = user_jwt_authentication P env req next h).
  { unfold config_ok in Hc. apply andb_true_iff in Hc. destruct Hc as [Ht Ha].
    unfold presents_service_token in Hp.
    unfold accessAuth. rewrite Ht, Ha, Hp. reflexivity. }
  split; [exact Hp|]. split; [exact Hj|].
  split; [now apply accessAuth_ignores_partial_service_token|].
  intros Hn. rewrite Hj. unfold user_jwt_authentication. rewrite Hn. reflexivity.
Qed.

Lemma empty_service_token_header_falls_through_witness :
  accessAuth (Samples.answering Samples.backend_ok) Samples.env_full
             Samples.empty_client_id (ret Samples.marker) [] =
    ([], Ok missing_credential).
Proof.
  apply (empty_service_token_header_falls_through
           (Samples.answering Samples.backend_ok) Samples.env_full
           Samples.empty_client_id (ret Samples.marker) []).
  - left. reflexivity.
  - reflexivity.
  - reflexivity.
Defined.

(** C9 as stated fails without its proviso: with no team domain the request
    with an empty client id and no assertion gets the configuration fault,
    not the missing-credential 403. *)
Lemma empty_service_token_header_without_team_domain :
  header Samples.empty_client_id "CF-Access-Client-Id" = Some "" /\
  header Samples.empty_client_id "cf-access-jwt-assertion" = None /\
  accessAuth (Samples.answering Samples.backend_ok) Samples.env_no_team
             Samples.empty_client_id (ret Samples.marker) [] =
    ([Console LogError [LStr "[Auth] CF_ACCESS_TEAM_NAME environment variable is not set"]],
     Ok (c_json config_fault_body 500)) /\
  accessAuth (Samples.answering Samples.backend_ok) Samples.env_no_team
             Samples.empty_client_id (ret Samples.marker) [] <>
    ([], Ok missing_credential).
Proof.
  repeat split; try reflexivity.
  vm_compute. discriminate.
Qed.

(** ** Routing *)

Lemma route_tools_invoke (P : Platform) env req :
  req_method req = "POST" -> req_path req = "/tools/invoke" ->
  route P env req = guarded (post_tools_invoke P env req).
Proof.
  destruct req as [m p hs b]. cbn [req_method req_path]. intros -> ->. reflexivity.
Qed.

Lemma route_chat_completions (P : Platform) env req :
  req_method req = "POST" -> req_path req = "/v1/chat/completions" ->
  route P env req = guarded (post_chat_completions P env req).
Proof.
  destruct req as [m p hs b]. cbn [req_method req_path]. intros -> ->. reflexivity.
Qed.

Lemma route_root (P : Platform) env req :
  req_method req = "GET" -> req_path req = "/" ->
  route P env req = guarded (get_root P env req).
Proof.
  destruct req as [m p hs b]. cbn [req_method req_path]. intros -> ->. reflexivity.
Qed.

Lemma strict_eq_some (a : option string) (s : string) :
  Js.strict_eq a (Some s) = true <-> a = Some s.
Proof.
  destruct a as [x|]; simpl.
  - rewrite String.eqb_eq. split; [intros ->; reflexivity | now intros [= ->]].
  - split; discriminate.
Qed.

Lemma gate_trace_is_quiet env req :
  forallb (fun e => negb (is_fetch e || is_socket_effect e)) (gate_trace env req) = true.
Proof. unfold gate_trace. destruct (presents_service_token req); reflexivity. Qed.

(** ** The forwarded routes *)

(** C7.  For an authenticated [POST /tools/invoke] whose backend fetch
    succeeds, the caller receives the very response the backend returned:
    status, headers, body and all, with nothing changed. *)
Theorem tools_invoke_returns_backend_response
  (P : Platform) (env : Env) (req : Request) (h : History) (r : Response) :
  authenticated P env req h = true ->
  req_method req = "POST" ->
  req_path req = "/tools/invoke" ->
  vpc_fetch P (h ++ gate_trace env req)
            (fst (tools_call req)) (snd (tools_call req)) = Ok r ->
  app P env req h =
    (h ++ gate_trace env req ++ [Fetch (fst (tools_call req)) (snd (tools_call req))],
     Ok r).
Proof.
  intros Ha Hm Hp Hf. apply app_admits; [exact Ha|].
  rewrite (route_tools_invoke P env req Hm Hp).
  apply guarded_ok. apply try_catch_ok.
  unfold fetch. cbn [tools_call fst snd] in Hf. rewrite Hf.
  now rewrite app_assoc.
Qed.

Lemma tools_invoke_returns_backend_response_witness :
  app (Samples.answering Samples.backend_ok) Samples.env_full
      (Samples.post_with "/tools/invoke" Samples.service_headers "{}") [] =
    ([Console LogInfo [LStr "[Auth] Service token validated successfully"];
      Fetch "http://localhost:18789/tools/invoke"
            (mkInit (Some "POST")
                    (Samples.service_headers ++ [("Origin", "http://localhost:18789")])
                    (Some "{}"))],
     Ok Samples.backend_ok).
Proof.
  apply (tools_invoke_returns_backend_response
           (Samples.answering Samples.backend_ok) Samples.env_full
           (Samples.post_with "/tools/invoke" Samples.service_headers "{}") []
           Samples.backend_ok); reflexivity.
Defined.

(** C8.  For an authenticated [POST /v1/chat/completions], if the upstream
    bearer token is unset the handler answers 500 with the
    configuration-error body, and no fetch is issued: after the gate the
    only effect is one line on the error console. *)
Theorem chat_completions_without_gateway_token
  (P : Platform) (env : Env) (req : Request) (h : History) :
  authenticated P env req h = true ->
  req_method req = "POST" ->
  req_path req = "/v1/chat/completions" ->
  Js.truthy (OPENCLAW_GATEWAY_TOKEN env) = false ->
  let effects :=
    gate_trace env req ++
    [Console LogError [LStr "[Chat] OPENCLAW_GATEWAY_TOKEN secret is not set"]] in
  app P env req h = (h ++ effects, Ok (c_json config_fault_body 500)) /\
  existsb is_fetch effects = false.
Proof.
  intros Ha Hm Hp Ht effects. split.
  - apply app_admits; [exact Ha|].
    rewrite (route_chat_completions P env req Hm Hp).
    apply guarded_ok. unfold post_chat_completions. rewrite Ht. cbn [negb].
    unfold console_error. rewrite bind_emit. unfold effects.
    now rewrite app_assoc.
  - unfold effects. rewrite existsb_app. cbn.
    rewrite orb_false_r.
    pose proof (gate_trace_is_quiet env req) as Hq.
    induction (gate_trace env req) as [|e tr IH]; [reflexivity|].
    cbn in Hq |- *. apply andb_true_iff in Hq. destruct Hq as [He Htr].
    rewrite (IH Htr). destruct (is_fetch e); [discriminate|reflexivity].
Qed.

Lemma chat_completions_without_gateway_token_witness :
  app (Samples.answering Samples.backend_ok) Samples.env_no_gateway_token
      (Samples.post_with "/v1/chat/completions" Samples.service_headers "{}") [] =
    ([Console LogInfo [LStr "[Auth] Service token validated successfully"];
      Console LogError [LStr "[Chat] OPENCLAW_GATEWAY_TOKEN secret is not set"]],
     Ok (c_json config_fault_body 500)).
Proof.
  apply (chat_completions_without_gateway_token
           (Samples.answering Samples.backend_ok) Samples.env_no_gateway_token
           (Samples.post_with "/v1/chat/completions" Samples.service_headers "{}") []);
    reflexivity.
Defined.

(** ** The root route *)

(** C10.  The bridge is entered only when the [Upgrade] header is exactly
    the string [websocket]: for an authenticated [GET /] with any other
    value, or none, the answer is the redirect to [/app], and nothing is
    fetched and no socket is touched. *)
Theorem root_without_exact_upgrade_redirects
  (P : Platform) (env : Env) (req : Request) (h : History) :
  authenticated P env req h = true ->
  req_method req = "GET" ->
  req_path req = "/" ->
  header req "Upgrade" <> Some "websocket" ->
  app P env req h = (h ++ gate_trace env req, Ok (c_redirect "/app")) /\
  forallb (fun e => negb (is_fetch e || is_socket_effect e)) (gate_trace env req) = true.
Proof.
  intros Ha Hm Hp Hu. split; [|apply gate_trace_is_quiet].
  apply app_admits; [exact Ha|].
  rewrite (route_root P env req Hm Hp).
  apply guarded_ok. unfold get_root.
  destruct (Js.strict_eq (header req "Upgrade") (Some "websocket")) eqn:E.
  - apply strict_eq_some in E. contradiction.
  - reflexivity.
Qed.

Lemma root_without_exact_upgrade_redirects_witness :
  app (Samples.answering Samples.backend_switching) Samples.env_full
      (Samples.get_with "/" (Samples.service_headers ++ [("Upgrade", "WebSocket")])) [] =
    ([Console LogInfo [LStr "[Auth] Service token validated successfully"]],
     Ok (c_redirect "/app")).
Proof.
  apply (root_without_exact_upgrade_redirects
           (Samples.answering Samples.backend_switching) Samples.env_full
           (Samples.get_with "/" (Samples.service_headers ++ [("Upgrade", "WebSocket")])) []);
    try reflexivity.
  vm_compute. discriminate.
Defined.

(** The upgrade branch of the root handler, case by case: what the backend
    answers, whether it hands over a socket, whether the two [accept]
    calls go through. *)
Lemma get_root_upgrade (P : Platform) env req h :
  header req "Upgrade" = Some "websocket" ->
  get_root P env req h =
    let url := fst (upgrade_call req) in
    let init := snd (upgrade_call req) in
    let h1 := h ++ [NewWebSocketPair] in
    let h2 := h1 ++ [Fetch url init] in
    match vpc_fetch P h1 url init with
    | Throw e => (h2 ++ fst (proxy_error e), Ok (snd (proxy_error e)))
    | Ok r =>
        match webSocket r with
        | None =>
            (h2 ++ [Console LogError
                      [LStr "[WS] Failed to establish WebSocket connection to OpenClaw"]],
             Ok (text_response "Failed to connect to OpenClaw WebSocket" 502))
        | Some openclawWs =>
            let h3 := h2 ++ [SocketCall WsPair1 OpAccept] in
            match socket_throws P h2 WsPair1 OpAccept with
            | Some e => (h3 ++ fst (proxy_error e), Ok (snd (proxy_error e)))
            | None =>
                let h4 := h3 ++ [SocketCall openclawWs OpAccept] in
                match socket_throws P h3 openclawWs OpAccept with
                | Some e => (h4 ++ fst (proxy_error e), Ok (snd (proxy_error e)))
                | None =>
                    (h4 ++ bridge_listeners WsPair1 openclawWs,
                     Ok (switching_protocols WsPair0))
                end
            end
        end
    end.
Proof.
  intros Hu. unfold get_root. rewrite Hu. cbn [Js.strict_eq].
  rewrite String.eqb_refl.
  cbv beta iota zeta delta
    [try_catch bind new_WebSocketPair emit ret fetch upgrade_call fst snd
     console_error proxy_error].
  destruct (vpc_fetch P (h ++ [NewWebSocketPair]) (backend ++ "/")%string
                      (upgrade_init req)) as [r|e]; [|reflexivity].
  destruct (webSocket r) as [openclawWs|]; [|reflexivity].
  cbv beta iota zeta delta [socket_call bind].
  destruct (socket_throws P _ WsPair1 OpAccept); [reflexivity|].
  destruct (socket_throws P _ openclawWs OpAccept); [reflexivity|].
  cbv beta iota zeta delta [addEventListener emit bind ret bridge_listeners].
  rewrite <- !app_assoc. reflexivity.
Qed.

(** C6.  For an authenticated [GET /] with [Upgrade: websocket], when the
    backend's upgrade response carries no socket the caller gets status
    502, and [accept] is called on no socket at all. *)
Theorem upgrade_without_backend_socket
  (P : Platform) (env : Env) (req : Request) (h : History) (r : Response) :
  authenticated P env req h = true ->
  req_method req = "GET" ->
  req_path req = "/" ->
  header req "Upgrade" = Some "websocket" ->
  vpc_fetch P (h ++ gate_trace env req ++ [NewWebSocketPair])
            (fst (upgrade_call req)) (snd (upgrade_call req)) = Ok r ->
  webSocket r = None ->
  let effects :=
    gate_trace env req ++
    [NewWebSocketPair;
     Fetch (fst (upgrade_call req)) (snd (upgrade_call req));
     Console LogError [LStr "[WS] Failed to establish WebSocket connection to OpenClaw"]] in
  app P env req h =
    (h ++ effects, Ok (text_response "Failed to connect to OpenClaw WebSocket" 502)) /\
  existsb is_accept effects = false.
Proof.
  intros Ha Hm Hp Hu Hf Hw effects. split.
  - apply app_admits; [exact Ha|].
    rewrite (route_root P env req Hm Hp).
    apply guarded_ok. rewrite (get_root_upgrade P env req _ Hu).
    cbv zeta. rewrite <- app_assoc, Hf, Hw.
    unfold effects. rewrite <- !app_assoc. reflexivity.
  - unfold effects. rewrite existsb_app. cbn. rewrite orb_false_r.
    unfold gate_trace. destruct (presents_service_token req); reflexivity.
Qed.

Lemma upgrade_without_backend_socket_witness :
  app (Samples.answering Samples.backend_ok) Samples.env_full
      Samples.upgrade_request [] =
    ([Console LogInfo [LStr "[Auth] Service token validated successfully"];
      NewWebSocketPair;
      Fetch "http://localhost:18789/" (upgrade_init Samples.upgrade_request);
      Console LogError [LStr "[WS] Failed to establish WebSocket connection to OpenClaw"]],
     Ok (text_response "Failed to connect to OpenClaw WebSocket" 502)).
Proof.
  apply (upgrade_without_backend_socket
           (Samples.answering Samples.backend_ok) Samples.env_full
           Samples.upgrade_request [] Samples.backend_ok); reflexivity.
Defined.

(** ** The bridge *)

Lemma socket_eqb_eq (a b : Socket) : socket_eqb a b = true <-> a = b.
Proof.
  destruct a, b; simpl; split; try discriminate; try reflexivity.
  - intros E. apply Nat.eqb_eq in E. now subst.
  - intros [= ->]. apply Nat.eqb_refl.
Qed.

Lemma socket_eqb_neq (a b : Socket) : a <> b -> socket_eqb a b = false.
Proof.
  intros N. destruct (socket_eqb a b) eqn:E; [|reflexivity].
  apply socket_eqb_eq in E. contradiction.
Qed.

Lemma socket_eqb_refl (a : Socket) : socket_eqb a a = true.
Proof. now apply socket_eqb_eq. Qed.

(** In an established session the history is the one of the successful
    branch, and the listeners are the six of the source. *)
Lemma bridge_established_history (P : Platform) env req h h' openclawWs :
  bridge_established P env req h h' openclawWs ->
  h' = h ++ [NewWebSocketPair;
             Fetch (fst (upgrade_call req)) (snd (upgrade_call req));
             SocketCall WsPair1 OpAccept;
             SocketCall openclawWs OpAccept]
         ++ bridge_listeners WsPair1 openclawWs.
Proof.
  intros [Hg [r [Hf Hw]]].
  assert (Hu : header req "Upgrade" = Some "websocket").
  { apply strict_eq_some.
    destruct (Js.strict_eq (header req "Upgrade") (Some "websocket")) eqn:E;
      [reflexivity|].
    unfold get_root in Hg. rewrite E in Hg. discriminate. }
  rewrite (get_root_upgrade P env req h Hu) in Hg. cbv zeta in Hg.
  rewrite Hf, Hw in Hg.
  destruct (socket_throws P _ WsPair1 OpAccept); [discriminate|].
  destruct (socket_throws P _ openclawWs OpAccept); [discriminate|].
  injection Hg as <-. rewrite <- !app_assoc. reflexivity.
Qed.

Lemma bridge_established_listeners (P : Platform) env req h h' openclawWs later s kind :
  bridge_established P env req h h' openclawWs ->
  no_listeners h -> no_listeners later ->
  listeners_on (h' ++ later) s kind =
  listeners_on (bridge_listeners WsPair1 openclawWs) s kind.
Proof.
  intros He Hh Hl. rewrite (bridge_established_history _ _ _ _ _ _ He).
  rewrite !listeners_on_app, Hh, Hl, app_nil_r. reflexivity.
Qed.

(** A listener that closes the other socket inside [try { } catch { }]:
    the call is made and nothing is thrown, whether or not [close] throws. *)
Lemma swallowed_close (P : Platform) (s : Socket) code reason (now : History) :
  try_catch (socket_call P s (OpClose code reason)) (fun _ => ret tt) now =
    (now ++ [SocketCall s (OpClose code reason)], Ok tt).
Proof.
  unfold try_catch, socket_call.
  destruct (socket_throws P now s (OpClose code reason)); reflexivity.
Qed.

Lemma run_single_closing_listener (P : Platform) l event s code reason now :
  run_listener P l event =
    try_catch (socket_call P s (OpClose code reason)) (fun _ => ret tt) ->
  run_listeners P [l] event now =
    (now ++ [SocketCall s (OpClose code reason)], Ok tt).
Proof.
  intros E. cbn [run_listeners]. rewrite E.
  unfold bind, try_catch at 1. rewrite swallowed_close. reflexivity.
Qed.

(** C5.  In an established bridge session, a close event with a code and a
    reason on either socket makes the handler call [close] on the other
    socket with the same code and reason, and an error event on either
    socket makes it call [close] on the other with code 1011 and a short
    reason.  In each case that call is the only effect, also when the
    call itself throws: the listener catches what [close] throws, so no
    exception escapes it (the history would record one as
    [UncaughtException]) and the delivery ends normally.

    The session is the one the root handler set up: the two sockets are
    different objects, they carried no listener before the handler ran,
    and none is added afterwards; [later] is whatever happened between the
    101 answer and the event. *)
Theorem bridge_propagates_close_and_error
  (P : Platform) (env : Env) (req : Request) (h h' : History)
  (openclawWs : Socket) (later : History) :
  bridge_established P env req h h' openclawWs ->
  openclawWs <> WsPair1 ->
  no_listeners h ->
  no_listeners later ->
  let server := WsPair1 in
  let now := h' ++ later in
  (forall code reason,
      deliver P server (CloseEvent code reason) now =
        (now ++ [SocketCall openclawWs (OpClose code reason)], Ok tt) /\
      deliver P openclawWs (CloseEvent code reason) now =
        (now ++ [SocketCall server (OpClose code reason)], Ok tt)) /\
  deliver P server ErrorEvent now =
    (now ++ [SocketCall openclawWs (OpClose 1011 "Client error")], Ok tt) /\
  deliver P openclawWs ErrorEvent now =
    (now ++ [SocketCall server (OpClose 1011 "Server error")], Ok tt).
Proof.
  intros He Hd Hh Hl server now.
  assert (E1 : socket_eqb openclawWs WsPair1 = false) by now apply socket_eqb_neq.
  assert (E2 : socket_eqb WsPair1 openclawWs = false)
    by (apply socket_eqb_neq; congruence).
  assert (E3 : socket_eqb openclawWs openclawWs = true) by apply socket_eqb_refl.
  assert (L : forall s kind,
             listeners_on now s kind =
             listeners_on (bridge_listeners WsPair1 openclawWs) s kind).
  { intros s kind. unfold now.
    now apply (bridge_established_listeners P env req h h' openclawWs later). }
  unfold deliver, server.
  repeat split; intros; rewrite L; cbn [event_kind listeners_on bridge_listeners];
    rewrite ?E1, ?E2, ?E3; cbn [socket_eqb kind_eqb andb];
    now apply run_single_closing_listener.
Qed.

Lemma bridge_propagates_close_and_error_witness :
  let P := Samples.close_throws Samples.backend_switching in
  let now :=
    fst (get_root P Samples.env_full Samples.upgrade_request []) ++
    [SocketCall (WsUpstream 0) (OpSend "hello")] in
  deliver P WsPair1 (CloseEvent 1000 "bye") now =
    (now ++ [SocketCall (WsUpstream 0) (OpClose 1000 "bye")], Ok tt).
Proof.
  apply (bridge_propagates_close_and_error
           (Samples.close_throws Samples.backend_switching)
           Samples.env_full Samples.upgrade_request []
           (fst (get_root (Samples.close_throws Samples.backend_switching)
                          Samples.env_full Samples.upgrade_request []))
           (WsUpstream 0) [SocketCall (WsUpstream 0) (OpSend "hello")]).
  - split; [reflexivity|]. exists Samples.backend_switching. split; reflexivity.
  - discriminate.
  - intros s kind. reflexivity.
  - intros s kind. reflexivity.
Defined.

(** ** Error responses *)

(** The catch branches of the two forwarding handlers answer with a fixed
    body: the caught value goes to the console only. *)
Lemma chat_completions_error_is_generic (P : Platform) env req h e :
  Js.truthy (OPENCLAW_GATEWAY_TOKEN env) = true ->
  (forall url init, vpc_fetch P h url init = Throw e) ->
  post_chat_completions P env req h =
    (fst (post_chat_completions P env req h),
     Ok (c_json [("error", "Failed to process chat request")] 500)).
Proof.
  intros Ht Hf. unfold post_chat_completions. rewrite Ht. cbn [negb].
  unfold try_catch, bind, fetch. rewrite Hf. reflexivity.
Qed.

Lemma tools_invoke_error_is_generic (P : Platform) env req h e :
  (forall url init, vpc_fetch P h url init = Throw e) ->
  post_tools_invoke P env req h =
    (fst (post_tools_invoke P env req h),
     Ok (c_json [("error", "Failed to invoke tool")] 500)).
Proof.
  intros Hf. unfold post_tools_invoke, try_catch, fetch. rewrite Hf. reflexivity.
Qed.

(** The catch branch of the upgrade handler is different: the caught value
    is rendered into the body. *)
Lemma upgrade_error_is_rendered (P : Platform) env req h e :
  header req "Upgrade" = Some "websocket" ->
  vpc_fetch P (h ++ [NewWebSocketPair])
            (fst (upgrade_call req)) (snd (upgrade_call req)) = Throw e ->
  snd (get_root P env req h) =
    Ok (text_response ("WebSocket proxy error: " ++ Js.to_string e)%string 502).
Proof.
  intros Hu Hf. rewrite (get_root_upgrade P env req h Hu). cbv zeta.
  rewrite Hf. reflexivity.
Qed.

(** C3, at the input where it fails.  Two runs of the same authenticated
    upgrade request that differ only in the error the backend fetch throws
    answer with different bodies, each containing the text of its error. *)
Theorem upgrade_error_reaches_the_caller :
  let run e := snd (app (Samples.failing e) Samples.env_full Samples.upgrade_request []) in
  run (Js.ErrorObj "Error" "connect ECONNREFUSED 10.0.0.7:18789") =
    Ok (text_response
          "WebSocket proxy error: Error: connect ECONNREFUSED 10.0.0.7:18789" 502) /\
  run (Js.ErrorObj "TypeError" "invalid token sk-live-42") =
    Ok (text_response "WebSocket proxy error: TypeError: invalid token sk-live-42" 502) /\
  run (Js.ErrorObj "Error" "connect ECONNREFUSED 10.0.0.7:18789") <>
  run (Js.ErrorObj "TypeError" "invalid token sk-live-42").
Proof.
  repeat split; try reflexivity.
  vm_compute. discriminate.
Qed.


(** ** More on the middleware *)

Lemma jwt_accepted_verdict (P : Platform) env req h :
  jwt_accepted P env req h =
    (Js.truthy (header req "cf-access-jwt-assertion") &&
     match jwt_verdict P env req h with
     | None => true
     | Some _ => false
     end)%bool.
Proof. reflexivity. Qed.

(** X1.  A request that is not authenticated never gets past the
    middleware: whatever handler comes next is not run, the answer is a
    403 or a 500 whose body is a JSON object with the single field
    [error], nothing is fetched from the backend and no socket is
    touched. *)
Theorem unauthenticated_request_stops_at_the_gate
  (P : Platform) (env : Env) (req : Request) (h : History) :
  authenticated P env req h = false ->
  exists tr r,
    (forall next : Eff Response, accessAuth P env req next h = (h ++ tr, Ok r)) /\
    app P env req h = (h ++ tr, Ok r) /\
    (status r = 403 \/ status r = 500) /\
    (exists msg, body r = BodyJson [("error", msg)]) /\
    forallb (fun e => negb (is_fetch e || is_socket_effect e)) tr = true.
Proof.
  intros Hn.
  assert (G : exists tr r,
             (forall next : Eff Response,
                 accessAuth P env req next h = (h ++ tr, Ok r)) /\
             (status r = 403 \/ status r = 500) /\
             (exists msg, body r = BodyJson [("error", msg)]) /\
             forallb (fun e => negb (is_fetch e || is_socket_effect e)) tr = true).
  { revert Hn.
    unfold authenticated, config_ok, presents_service_token,
      service_token_matches, accessAuth, user_jwt_authentication.
    rewrite jwt_accepted_verdict. unfold jwt_verdict.
    destruct (Js.truthy (CF_ACCESS_TEAM_NAME env)); cbn [andb negb].
    2:{ intros _. eexists [_], _. repeat split; try (intros; reflexivity).
        - right; reflexivity.
        - eexists; reflexivity. }
    destruct (Js.truthy (CF_ACCESS_AUD env)); cbn [andb negb].
    2:{ intros _. eexists [_], _. repeat split; try (intros; reflexivity).
        - right; reflexivity.
        - eexists; reflexivity. }
    destruct (Js.truthy (header req "CF-Access-Client-Id") &&
              Js.truthy (header req "CF-Access-Client-Secret"))%bool.
    - intros ->. eexists [_], _. repeat split; try (intros; reflexivity).
      + left; reflexivity.
      + eexists; reflexivity.
    - destruct (Js.truthy (header req "cf-access-jwt-assertion")); cbn [andb negb].
      + unfold try_catch, bind, jwtVerify.
        destruct (jose_verify P h _ _ _ _) as [e|]; [intros _|discriminate].
        eexists [_; _], _. repeat split.
        * intros next. unfold console_error, bind, emit, ret.
          rewrite <- app_assoc. reflexivity.
        * left; reflexivity.
        * eexists; reflexivity.
        * reflexivity.
      + intros _. exists [], missing_credential. repeat split.
        * intros next. rewrite app_nil_r. reflexivity.
        * left; reflexivity.
        * eexists; reflexivity. }
  destruct G as (tr & r & Hmw & Hs & Hb & Hq).
  exists tr, r. repeat split; try assumption.
  unfold app. apply guarded_ok. apply Hmw.
Qed.

Lemma unauthenticated_request_stops_at_the_gate_witness :
  exists tr r,
    (forall next : Eff Response,
        accessAuth (Samples.rejecting (Js.ErrorObj "JWTExpired" "exp claim failed"))
                   Samples.env_full
                   (Samples.assertion_request "POST" "/tools/invoke") next [] =
          ([] ++ tr, Ok r)) /\
    app (Samples.rejecting (Js.ErrorObj "JWTExpired" "exp claim failed"))
        Samples.env_full (Samples.assertion_request "POST" "/tools/invoke") [] =
      ([] ++ tr, Ok r) /\
    (status r = 403 \/ status r = 500) /\
    (exists msg, body r = BodyJson [("error", msg)]) /\
    forallb (fun e => negb (is_fetch e || is_socket_effect e)) tr = true.
Proof.
  apply (unauthenticated_request_stops_at_the_gate
           (Samples.rejecting (Js.ErrorObj "JWTExpired" "exp claim failed"))
           Samples.env_full (Samples.assertion_request "POST" "/tools/invoke") []).
  reflexivity.
Defined.

(** X2.  When the verification library throws on the assertion, whatever
    it throws, the answer is the 403 with the body
    [{error: "Invalid or expired token"}]: the thrown value reaches the
    console only (its message when it is an [Error], the words
    [Unknown error] otherwise), and the next handler is not run. *)
Theorem rejected_assertion_gets_fixed_answer
  (P : Platform) (env : Env) (req : Request) (next : Eff Response)
  (h : History) (e : Js.Thrown) :
  config_ok env = true ->
  presents_service_token req = false ->
  Js.truthy (header req "cf-access-jwt-assertion") = true ->
  jwt_verdict P env req h = Some e ->
  accessAuth P env req next h =
    (h ++ [jwt_check env req; jwt_failure_log e], Ok invalid_or_expired).
Proof.
  unfold config_ok, presents_service_token, jwt_verdict.
  intros Hc Hp Ht Hv. apply andb_true_iff in Hc. destruct Hc as [Hteam Haud].
  unfold accessAuth, user_jwt_authentication. rewrite Hteam, Haud, Hp, Ht.
  cbn [negb]. unfold try_catch, bind, jwtVerify. rewrite Hv.
  unfold console_error, emit, ret, jwt_check, jwt_failure_log.
  rewrite <- app_assoc. reflexivity.
Qed.

Lemma rejected_assertion_gets_fixed_answer_witness :
  accessAuth (Samples.rejecting (Js.Primitive "signature verification failed"))
             Samples.env_full (Samples.assertion_request "GET" "/")
             (ret Samples.marker) [] =
    ([] ++ [jwt_check Samples.env_full (Samples.assertion_request "GET" "/");
            jwt_failure_log (Js.Primitive "signature verification failed")],
     Ok invalid_or_expired).
Proof.
  apply (rejected_assertion_gets_fixed_answer
           (Samples.rejecting (Js.Primitive "signature verification failed"))
           Samples.env_full (Samples.assertion_request "GET" "/")
           (ret Samples.marker) []); reflexivity.
Defined.

(** X3.  [next] is awaited inside the [try] block of the assertion path
    and outside any [try] on the service-token path.  So when the rest of
    the chain throws for an authenticated request, a request admitted by
    its assertion is answered 403 [Invalid or expired token], with the
    thrown value logged as a validation failure, while for a request
    admitted by its service token the value is thrown on. *)
Theorem downstream_throw_after_the_gate
  (P : Platform) (env : Env) (req : Request) (next : Eff Response)
  (h h' : History) (e : Js.Thrown) :
  authenticated P env req h = true ->
  next (h ++ gate_trace env req) = (h', Throw e) ->
  accessAuth P env req next h =
    (if presents_service_token req then (h', Throw e)
     else (h' ++ [jwt_failure_log e], Ok invalid_or_expired)).
Proof.
  unfold authenticated, config_ok, gate_trace, accessAuth.
  destruct (Js.truthy (CF_ACCESS_TEAM_NAME env)); [|discriminate].
  destruct (Js.truthy (CF_ACCESS_AUD env)); [|discriminate].
  cbn [andb negb]. unfold presents_service_token.
  destruct (Js.truthy (header req "CF-Access-Client-Id") &&
            Js.truthy (header req "CF-Access-Client-Secret"))%bool.
  - unfold service_token_matches. intros -> Hn.
    unfold console_log. rewrite bind_emit. exact Hn.
  - unfold jwt_accepted, jwt_check, user_jwt_authentication.
    destruct (Js.truthy (header req "cf-access-jwt-assertion")); [|discriminate].
    cbn [andb negb]. intros Hj Hn.
    unfold try_catch, bind, jwtVerify.
    destruct (jose_verify P h _ _ _ _); [discriminate|].
    rewrite Hn. reflexivity.
Qed.

Lemma downstream_throw_after_the_gate_witness :
  accessAuth (Samples.answering Samples.backend_ok) Samples.env_full
             (Samples.assertion_request "GET" "/app/favicon.ico")
             (throw (Js.Primitive "stream aborted")) [] =
    ([jwt_check Samples.env_full (Samples.assertion_request "GET" "/app/favicon.ico")]
       ++ [jwt_failure_log (Js.Primitive "stream aborted")],
     Ok invalid_or_expired).
Proof.
  apply (downstream_throw_after_the_gate
           (Samples.answering Samples.backend_ok) Samples.env_full
           (Samples.assertion_request "GET" "/app/favicon.ico")
           (throw (Js.Primitive "stream aborted")) []
           [jwt_check Samples.env_full (Samples.assertion_request "GET" "/app/favicon.ico")]
           (Js.Primitive "stream aborted")); reflexivity.
Defined.

(** X4.  Service tokens were added without changing the assertion path.
    On a request that does not present both service-token headers, the
    middleware and its earlier text do the same thing whenever the
    configuration is incomplete or the request carries an assertion.  In
    the one remaining case (configuration complete, no assertion) both
    answer 403 at once, with no effect and without running [next], and
    differ only in the wording of the body: the earlier text says
    [Missing required CF Access JWT], the present one adds
    [or service token]. *)
Theorem service_tokens_leave_assertion_path_unchanged
  (P : Platform) (env : Env) (req : Request) (next : Eff Response) (h : History) :
  presents_service_token req = false ->
  (config_ok env = false \/ Js.truthy (header req "cf-access-jwt-assertion") = true ->
   accessAuth P env req next h = accessAuth_jwt_only P env req next h) /\
  (config_ok env = true ->
   Js.truthy (header req "cf-access-jwt-assertion") = false ->
   accessAuth P env req next h =
     (h, Ok (c_json [("error", "Missing required CF Access JWT or service token")] 403)) /\
   accessAuth_jwt_only P env req next h =
     (h, Ok (c_json [("error", "Missing required CF Access JWT")] 403))).
Proof.
  unfold presents_service_token, config_ok. intros Hp.
  unfold accessAuth, accessAuth_jwt_only, user_jwt_authentication.
  rewrite Hp. split.
  - intros Hc.
    destruct (Js.truthy (CF_ACCESS_TEAM_NAME env)); [|reflexivity].
    destruct (Js.truthy (CF_ACCESS_AUD env)); [|reflexivity].
    cbn [negb]. destruct Hc as [Hc|Hc]; [discriminate|]. rewrite Hc. reflexivity.
  - intros Hc Ht. apply andb_true_iff in Hc. destruct Hc as [Hteam Haud].
    rewrite Hteam, Haud, Ht. split; reflexivity.
Qed.

Lemma service_tokens_leave_assertion_path_unchanged_witness :
  (accessAuth (Samples.answering Samples.backend_ok) Samples.env_full
              (Samples.assertion_request "GET" "/") (ret Samples.marker) [] =
   accessAuth_jwt_only (Samples.answering Samples.backend_ok) Samples.env_full
              (Samples.assertion_request "GET" "/") (ret Samples.marker) []) /\
  (accessAuth (Samples.answering Samples.backend_ok) Samples.env_full
              (Samples.get_with "/" []) (ret Samples.marker) [] =
     ([], Ok (c_json [("error", "Missing required CF Access JWT or service token")] 403)) /\
   accessAuth_jwt_only (Samples.answering Samples.backend_ok) Samples.env_full
              (Samples.get_with "/" []) (ret Samples.marker) [] =
     ([], Ok (c_json [("error", "Missing required CF Access JWT")] 403))).
Proof.
  split.
  - apply (service_tokens_leave_assertion_path_unchanged
             (Samples.answering Samples.backend_ok) Samples.env_full
             (Samples.assertion_request "GET" "/") (ret Samples.marker) []).
    + reflexivity.
    + right. reflexivity.
  - apply (service_tokens_leave_assertion_path_unchanged
             (Samples.answering Samples.backend_ok) Samples.env_full
             (Samples.get_with "/" []) (ret Samples.marker) []);
      reflexivity.
Defined.

(** ** More on the forwarded routes *)

(** X5.  For an authenticated [POST /v1/chat/completions] with the gateway
    token configured, the handler makes exactly one fetch: a POST to the
    backend's chat endpoint whose headers are the fixed origin, the JSON
    content type and [Authorization: Bearer] followed by the gateway
    token (none of the inbound headers), and whose body is the inbound
    body.  The backend's response is returned as it is; when the fetch
    throws, the answer is 500 with the fixed body
    [{error: "Failed to process chat request"}] and the thrown value goes
    to the console only. *)
Theorem chat_completions_forwards_with_gateway_token
  (P : Platform) (env : Env) (req : Request) (h : History) (gateway_token : string) :
  authenticated P env req h = true ->
  req_method req = "POST" ->
  req_path req = "/v1/chat/completions" ->
  OPENCLAW_GATEWAY_TOKEN env = Some gateway_token ->
  gateway_token <> "" ->
  let call := chat_call gateway_token (req_body req) in
  let before := h ++ gate_trace env req in
  app P env req h =
    match vpc_fetch P before (fst call) (snd call) with
    | Ok r => (before ++ [call_effect call], Ok r)
    | Throw e =>
        (before ++ [call_effect call; Console LogError [LStr "[Chat] Error:"; LThrown e]],
         Ok (c_json [("error", "Failed to process chat request")] 500))
    end.
Proof.
  intros Ha Hm Hp Ht Hne call before.
  assert (Hr : route P env req before =
               match vpc_fetch P before (fst call) (snd call) with
               | Ok r => (before ++ [call_effect call], Ok r)
               | Throw e =>
                   (before ++ [call_effect call;
                               Console LogError [LStr "[Chat] Error:"; LThrown e]],
                    Ok (c_json [("error", "Failed to process chat request")] 500))
               end).
  { rewrite (route_chat_completions P env req Hm Hp).
    unfold guarded, post_chat_completions. rewrite Ht.
    destruct gateway_token as [|c tok]; [contradiction|].
    cbn [Js.truthy Js.is_empty negb Js.or_else].
    unfold try_catch, bind, fetch, call, chat_call, call_effect, backend.
    cbn [fst snd append].
    destruct (vpc_fetch P before _ _); [reflexivity|].
    unfold console_error, emit, ret. rewrite <- app_assoc. reflexivity. }
  destruct (vpc_fetch P before (fst call) (snd call)) eqn:E;
    apply app_admits; assumption.
Qed.

Lemma chat_completions_forwards_with_gateway_token_witness :
  app (Samples.failing (Js.ErrorObj "Error" "network down")) Samples.env_full
      (Samples.post_with "/v1/chat/completions" Samples.service_headers "{}") [] =
    ([Console LogInfo [LStr "[Auth] Service token validated successfully"];
      call_effect (chat_call "gateway-token" "{}");
      Console LogError [LStr "[Chat] Error:";
                        LThrown (Js.ErrorObj "Error" "network down")]],
     Ok (c_json [("error", "Failed to process chat request")] 500)).
Proof.
  apply (chat_completions_forwards_with_gateway_token
           (Samples.failing (Js.ErrorObj "Error" "network down")) Samples.env_full
           (Samples.post_with "/v1/chat/completions" Samples.service_headers "{}") []
           "gateway-token"); try reflexivity.
  discriminate.
Defined.

(** X6.  For an authenticated [POST /tools/invoke] whose backend fetch
    throws, whatever is thrown, the answer is 500 with the fixed body
    [{error: "Failed to invoke tool"}]; the thrown value goes to the
    console only. *)
Theorem tools_invoke_failure_gets_fixed_answer
  (P : Platform) (env : Env) (req : Request) (h : History) (e : Js.Thrown) :
  authenticated P env req h = true ->
  req_method req = "POST" ->
  req_path req = "/tools/invoke" ->
  vpc_fetch P (h ++ gate_trace env req)
            (fst (tools_call req)) (snd (tools_call req)) = Throw e ->
  app P env req h =
    (h ++ gate_trace env req ++
       [call_effect (tools_call req);
        Console LogError [LStr "[Tools] Error:"; LThrown e]],
     Ok (c_json [("error", "Failed to invoke tool")] 500)).
Proof.
  intros Ha Hm Hp Hf. apply app_admits; [exact Ha|].
  rewrite (route_tools_invoke P env req Hm Hp).
  apply guarded_ok. unfold post_tools_invoke, try_catch, fetch.
  cbn [tools_call fst snd] in Hf. rewrite Hf.
  unfold console_error, bind, emit, ret, call_effect, tools_call. cbn [fst snd].
  rewrite <- !app_assoc. reflexivity.
Qed.

Lemma tools_invoke_failure_gets_fixed_answer_witness :
  app (Samples.failing (Js.Primitive "boom")) Samples.env_full
      (Samples.post_with "/tools/invoke" Samples.service_headers "{}") [] =
    ([] ++ gate_trace Samples.env_full
             (Samples.post_with "/tools/invoke" Samples.service_headers "{}") ++
       [call_effect (tools_call (Samples.post_with "/tools/invoke"
                                   Samples.service_headers "{}"));
        Console LogError [LStr "[Tools] Error:"; LThrown (Js.Primitive "boom")]],
     Ok (c_json [("error", "Failed to invoke tool")] 500)).
Proof.
  apply (tools_invoke_failure_gets_fixed_answer
           (Samples.failing (Js.Primitive "boom")) Samples.env_full
           (Samples.post_with "/tools/invoke" Samples.service_headers "{}") []
           (Js.Primitive "boom")); reflexivity.
Defined.

Lemma same_name_refl (a : string) : same_name a a = true.
Proof. apply String.eqb_refl. Qed.

Lemma same_name_sym (a b : string) : same_name a b = same_name b a.
Proof. apply String.eqb_sym. Qed.

Lemma same_name_trans_false (k a b : string) :
  same_name k a = true -> same_name a b = false -> same_name k b = false.
Proof.
  unfold same_name. intros E. apply String.eqb_eq in E. now rewrite E.
Qed.

Lemma headers_get_set_same (hs : Headers) (name value : string) :
  headers_get (headers_set hs name value) name = Some value.
Proof.
  unfold headers_get, headers_set. rewrite filter_app.
  rewrite filter_filter_drop.
  - cbn [filter fst app]. rewrite same_name_refl. reflexivity.
  - intros [k v]. cbn [fst]. now intros ->.
Qed.

Lemma headers_get_set_other (hs : Headers) (name value other : string) :
  same_name other name = false ->
  headers_get (headers_set hs name value) other = headers_get hs other.
Proof.
  intros Hn. unfold headers_get, headers_set. rewrite filter_app.
  rewrite filter_filter_keep.
  - cbn [filter fst]. rewrite same_name_sym, Hn, app_nil_r. reflexivity.
  - intros [k v]. cbn [fst]. intros E.
    now rewrite (same_name_trans_false k other name E Hn).
Qed.

(** X7.  The fetch of [POST /tools/invoke] carries the inbound headers
    with [Origin] overridden: in the outbound request [Origin] is the
    backend origin whatever the caller sent, every header of another name
    has the value it had inbound (the caller's credentials included), and
    the body is the inbound body. *)
Theorem tools_invoke_overrides_origin_only
  (P : Platform) (env : Env) (req : Request) (h : History) :
  let call := tools_call req in
  (exists rest, fst (post_tools_invoke P env req h) = h ++ call_effect call :: rest) /\
  headers_get (init_headers (snd call)) "Origin" = Some "http://localhost:18789" /\
  (forall name, same_name name "Origin" = false ->
     headers_get (init_headers (snd call)) name = headers_get (req_headers req) name) /\
  init_body (snd call) = Some (req_body req).
Proof.
  cbv zeta. repeat split.
  - unfold post_tools_invoke, try_catch, fetch, call_effect, tools_call. cbn [fst snd].
    destruct (vpc_fetch P h _ _).
    + exists []. reflexivity.
    + eexists. unfold console_error, bind, emit, ret. cbn [fst].
      rewrite <- app_assoc. reflexivity.
  - apply headers_get_set_same.
  - intros name Hn. now apply headers_get_set_other.
Qed.

Lemma route_app_assets (P : Platform) env req rest :
  req_method req = "GET" -> req_path req = ("/app/assets/" ++ rest)%string ->
  route P env req =
    guarded (fetch P ("http://localhost:18789/assets/" ++ rest)%string origin_only).
Proof.
  destruct req as [m p hs b]. cbn [req_method req_path]. intros -> ->. reflexivity.
Qed.

(** X8.  An authenticated [GET] of a path under [/app/assets/] is fetched
    from the backend with the [/app] prefix removed, even when
    [/app/assets] occurs again further on in the path, sending nothing
    but the [Origin] header; the backend's response is returned as it
    is. *)
Theorem app_assets_path_is_rewritten
  (P : Platform) (env : Env) (req : Request) (h : History)
  (rest : string) (r : Response) :
  authenticated P env req h = true ->
  req_method req = "GET" ->
  req_path req = ("/app/assets/" ++ rest)%string ->
  vpc_fetch P (h ++ gate_trace env req)
            ("http://localhost:18789/assets/" ++ rest)%string origin_only = Ok r ->
  app P env req h =
    (h ++ gate_trace env req ++
       [Fetch ("http://localhost:18789/assets/" ++ rest)%string origin_only],
     Ok r).
Proof.
  intros Ha Hm Hp Hf. apply app_admits; [exact Ha|].
  rewrite (route_app_assets P env req rest Hm Hp).
  apply guarded_ok. unfold fetch. rewrite Hf. now rewrite app_assoc.
Qed.

Lemma app_assets_path_is_rewritten_witness :
  app (Samples.answering Samples.backend_ok) Samples.env_full
      (Samples.get_with "/app/assets/app/assets/index.js" Samples.service_headers) [] =
    ([] ++ gate_trace Samples.env_full
             (Samples.get_with "/app/assets/app/assets/index.js" Samples.service_headers) ++
       [Fetch ("http://localhost:18789/assets/" ++ "app/assets/index.js")%string
              origin_only],
     Ok Samples.backend_ok).
Proof.
  apply (app_assets_path_is_rewritten
           (Samples.answering Samples.backend_ok) Samples.env_full
           (Samples.get_with "/app/assets/app/assets/index.js" Samples.service_headers)
           [] "app/assets/index.js" Samples.backend_ok); reflexivity.
Defined.

Lemma asset_route_fetches (P : Platform) env req :
  asset_route req = true ->
  exists url, route P env req = guarded (fetch P url origin_only).
Proof.
  unfold asset_route. intros H. apply andb_true_iff in H. destruct H as [Hm Hr].
  apply String.eqb_eq in Hm.
  unfold route, routes. cbn [find route_applies].
  replace (dispatch_method req) with "GET"
    by (unfold dispatch_method; rewrite <- Hm; reflexivity).
  change (String.eqb "POST" "GET") with false.
  change (String.eqb "GET" "GET") with true.
  cbn [andb].
  destruct (route_match "/app/assets/*" (req_path req)); [eexists; reflexivity|].
  destruct (route_match "/app/favicon.ico" (req_path req)); [eexists; reflexivity|].
  destruct (route_match "/app/favicon.svg" (req_path req)); [eexists; reflexivity|].
  destruct (route_match "/app/*" (req_path req)); [eexists; reflexivity|].
  destruct (route_match "/assets/*" (req_path req)); [eexists; reflexivity|].
  discriminate.
Qed.

(** X9.  The five page and asset routes ([/app/assets/*], the two
    favicons, [/app/*], [/assets/*]) all do the same for an authenticated
    [GET]: one fetch from the backend that sends nothing but the [Origin]
    header, whose response is returned as it is.  They have no [try]: an
    [Error] thrown by the fetch is answered by [onError] with 500 and the
    fixed body [{error: "Internal server error"}], its message going to
    the console only. *)
Theorem asset_routes_fetch_with_origin_only
  (P : Platform) (env : Env) (req : Request) (h : History) :
  authenticated P env req h = true ->
  asset_route req = true ->
  let before := h ++ gate_trace env req in
  exists url,
    (forall r, vpc_fetch P before url origin_only = Ok r ->
       app P env req h = (before ++ [Fetch url origin_only], Ok r)) /\
    (forall name message,
       vpc_fetch P before url origin_only = Throw (Js.ErrorObj name message) ->
       app P env req h =
         (before ++ [Fetch url origin_only;
                     Console LogError [LStr ("[Error] Unhandled: " ++ message)%string]],
          Ok internal_server_error)).
Proof.
  intros Ha Hr before.
  destruct (asset_route_fetches P env req Hr) as [url Hu].
  exists url. split.
  - intros r Hf. apply app_admits; [exact Ha|]. rewrite Hu.
    apply guarded_ok. unfold fetch. fold before. now rewrite Hf.
  - intros name message Hf. apply app_admits; [exact Ha|]. rewrite Hu.
    unfold guarded, try_catch, fetch. fold before. rewrite Hf.
    cbn [Js.instanceof_Error]. unfold onError, console_error, bind, emit, ret.
    cbn [Js.message]. rewrite <- app_assoc. reflexivity.
Qed.

Lemma asset_routes_fetch_with_origin_only_witness :
  let P := Samples.failing (Js.ErrorObj "Error" "connection reset") in
  let req := Samples.get_with "/app/favicon.svg" Samples.service_headers in
  exists url,
    (forall r,
       vpc_fetch P ([] ++ gate_trace Samples.env_full req) url origin_only = Ok r ->
       app P Samples.env_full req [] =
         (([] ++ gate_trace Samples.env_full req) ++ [Fetch url origin_only], Ok r)) /\
    (forall name message,
       vpc_fetch P ([] ++ gate_trace Samples.env_full req) url origin_only =
         Throw (Js.ErrorObj name message) ->
       app P Samples.env_full req [] =
         (([] ++ gate_trace Samples.env_full req) ++
            [Fetch url origin_only;
             Console LogError [LStr ("[Error] Unhandled: " ++ message)%string]],
          Ok internal_server_error)).
Proof.
  apply (asset_routes_fetch_with_origin_only
           (Samples.failing (Js.ErrorObj "Error" "connection reset"))
           Samples.env_full
           (Samples.get_with "/app/favicon.svg" Samples.service_headers) []);
    reflexivity.
Defined.

Lemma exact_route_match (pattern path : string) :
  String.eqb pattern "*" = false ->
  wildcard_prefix pattern = None ->
  route_match pattern path = String.eqb pattern path.
Proof. unfold route_match. now intros -> ->. Qed.

(** X10.  An authenticated request whose method is neither [GET] nor
    [HEAD] (which is dispatched as a [GET]), which is not a [POST] to one
    of the two forwarded paths, and whose pathname has no percent escape
    (so that the router sees the pathname itself), reaches the last
    handler: the answer is 404 with the body [{error: "Not found"}], the
    method and the path go to the console, and nothing is fetched. *)
Theorem other_methods_are_not_found
  (P : Platform) (env : Env) (req : Request) (h : History) :
  authenticated P env req h = true ->
  req_method req <> "GET" ->
  req_method req <> "HEAD" ->
  plain_path (req_path req) = true ->
  (req_method req = "POST" ->
   req_path req <> "/v1/chat/completions" /\ req_path req <> "/tools/invoke") ->
  app P env req h =
    (h ++ gate_trace env req ++
       [Console LogInfo
          [LStr ("[404] Unmatched route: " ++ req_method req ++ " " ++ req_path req)%string]],
     Ok not_found).
Proof.
  intros Ha Hg Hh _ Hpost. apply app_admits; [exact Ha|].
  assert (Hd : dispatch_method req = req_method req).
  { unfold dispatch_method. apply String.eqb_neq in Hh. now rewrite Hh. }
  assert (Hr : route P env req = guarded (all_not_found env req)).
  { unfold route, routes. cbn [find route_applies]. rewrite Hd.
    assert (G : String.eqb "GET" (req_method req) = false).
    { apply String.eqb_neq. congruence. }
    rewrite G. cbn [andb].
    destruct (String.eqb "POST" (req_method req)) eqn:Ep; cbn [andb].
    - apply String.eqb_eq in Ep. destruct (Hpost (eq_sym Ep)) as [N1 N2].
      rewrite !exact_route_match by reflexivity.
      apply not_eq_sym, String.eqb_neq in N1. apply not_eq_sym, String.eqb_neq in N2.
      rewrite N1, N2. reflexivity.
    - reflexivity. }
  rewrite Hr. apply guarded_ok.
  unfold all_not_found, console_log. rewrite bind_emit.
  unfold ret. now rewrite app_assoc.
Qed.

Lemma other_methods_are_not_found_witness :
  app (Samples.answering Samples.backend_ok) Samples.env_full
      (mkRequest "DELETE" "/tools/invoke" Samples.service_headers "") [] =
    ([Console LogInfo [LStr "[Auth] Service token validated successfully"];
      Console LogInfo [LStr "[404] Unmatched route: DELETE /tools/invoke"]],
     Ok not_found).
Proof.
  apply (other_methods_are_not_found
           (Samples.answering Samples.backend_ok) Samples.env_full
           (mkRequest "DELETE" "/tools/invoke" Samples.service_headers "") []).
  - reflexivity.
  - discriminate.
  - discriminate.
  - reflexivity.
  - discriminate.
Defined.

(** A HEAD request goes where the GET request would go. *)
Example head_is_dispatched_as_get :
  snd (app (Samples.answering Samples.backend_ok) Samples.env_full
         (mkRequest "HEAD" "/app/favicon.ico" Samples.service_headers "") []) =
  Ok Samples.backend_ok.
Proof. reflexivity. Qed.

(** ** More on the bridge *)

(** The listeners of an established session, socket by socket. *)
Lemma established_listeners (P : Platform) env req h h' openclawWs later :
  bridge_established P env req h h' openclawWs ->
  openclawWs <> WsPair1 ->
  no_listeners h ->
  no_listeners later ->
  let now := h' ++ later in
  listeners_on now WsPair1 KMessage = [server_message openclawWs] /\
  listeners_on now WsPair1 KClose = [server_close openclawWs] /\
  listeners_on now WsPair1 KError = [server_error openclawWs] /\
  listeners_on now openclawWs KMessage = [openclaw_message WsPair1] /\
  listeners_on now openclawWs KClose = [openclaw_close WsPair1] /\
  listeners_on now openclawWs KError = [openclaw_error WsPair1].
Proof.
  intros He Hd Hh Hl now.
  assert (E1 : socket_eqb openclawWs WsPair1 = false) by now apply socket_eqb_neq.
  assert (E2 : socket_eqb WsPair1 openclawWs = false)
    by (apply socket_eqb_neq; congruence).
  assert (E3 : socket_eqb openclawWs openclawWs = true) by apply socket_eqb_refl.
  unfold now.
  repeat split;
    rewrite (bridge_established_listeners P env req h h' openclawWs later _ _ He Hh Hl);
    cbn [listeners_on bridge_listeners];
    rewrite ?E1, ?E2, ?E3; reflexivity.
Qed.

Lemma run_single_relaying_listener (P : Platform) l data dest tag now :
  run_listener P l (MessageEvent data) =
    try_catch (socket_call P dest (OpSend data))
              (fun e => console_error [LStr tag; LThrown e]) ->
  run_listeners P [l] (MessageEvent data) now =
    (now ++ relay_trace P now dest tag data, Ok tt).
Proof.
  intros E. cbn [run_listeners]. rewrite E.
  unfold bind, try_catch, socket_call, relay_trace.
  destruct (socket_throws P now dest (OpSend data)).
  - unfold console_error, emit. rewrite <- app_assoc. reflexivity.
  - reflexivity.
Qed.

Lemma no_listeners_app (a b : History) :
  no_listeners a -> no_listeners b -> no_listeners (a ++ b).
Proof.
  intros Ha Hb s kind. now rewrite listeners_on_app, Ha, Hb.
Qed.

(** X11.  In an established bridge session a message on either socket is
    sent, with the same data, to the other socket.  When that [send]
    throws, the thrown value is logged, nothing is thrown on (the
    history records no [UncaughtException]), and the other socket is not
    closed: a failed relay does not end the session. *)
Theorem bridge_relays_messages
  (P : Platform) (env : Env) (req : Request) (h h' : History)
  (openclawWs : Socket) (later : History) :
  bridge_established P env req h h' openclawWs ->
  openclawWs <> WsPair1 ->
  no_listeners h ->
  no_listeners later ->
  let server := WsPair1 in
  let now := h' ++ later in
  forall data,
    deliver P server (MessageEvent data) now =
      (now ++ relay_trace P now openclawWs "[WS] Error forwarding to OpenClaw:" data,
       Ok tt) /\
    deliver P openclawWs (MessageEvent data) now =
      (now ++ relay_trace P now server "[WS] Error forwarding to client:" data,
       Ok tt) /\
    (forall dest tag, existsb is_close (relay_trace P now dest tag data) = false).
Proof.
  intros He Hd Hh Hl server now data.
  destruct (established_listeners P env req h h' openclawWs later He Hd Hh Hl)
    as (Lsm & _ & _ & Lom & _ & _).
  fold now in Lsm, Lom. unfold deliver, server. cbn [event_kind].
  rewrite Lsm, Lom. repeat split.
  - now apply run_single_relaying_listener.
  - now apply run_single_relaying_listener.
  - intros dest tag. unfold relay_trace.
    destruct (socket_throws P now dest (OpSend data)); reflexivity.
Qed.

Lemma bridge_relays_messages_witness :
  let P := Samples.send_throws Samples.backend_switching in
  let now := fst (get_root P Samples.env_full Samples.upgrade_request []) ++ [] in
  deliver P WsPair1 (MessageEvent "ping") now =
    (now ++ [SocketCall (WsUpstream 0) (OpSend "ping");
             Console LogError
               [LStr "[WS] Error forwarding to OpenClaw:";
                LThrown (Js.ErrorObj "TypeError" "socket is closed")]],
     Ok tt).
Proof.
  apply (bridge_relays_messages
           (Samples.send_throws Samples.backend_switching)
           Samples.env_full Samples.upgrade_request []
           (fst (get_root (Samples.send_throws Samples.backend_switching)
                          Samples.env_full Samples.upgrade_request []))
           (WsUpstream 0) []).
  - split; [reflexivity|]. exists Samples.backend_switching. split; reflexivity.
  - discriminate.
  - intros s kind. reflexivity.
  - intros s kind. reflexivity.
Defined.

(** X12.  The bridge keeps no state of its own and removes no listener:
    after a close event on the client-facing socket has been handled, a
    message arriving on the backend socket is still sent to the
    client-facing socket, and a second close event calls [close] on the
    backend socket again. *)
Theorem bridge_has_no_closed_state
  (P : Platform) (env : Env) (req : Request) (h h' : History)
  (openclawWs : Socket) (later : History) :
  bridge_established P env req h h' openclawWs ->
  openclawWs <> WsPair1 ->
  no_listeners h ->
  no_listeners later ->
  let server := WsPair1 in
  forall code reason data,
    let closed := fst (deliver P server (CloseEvent code reason) (h' ++ later)) in
    closed = (h' ++ later) ++ [SocketCall openclawWs (OpClose code reason)] /\
    deliver P openclawWs (MessageEvent data) closed =
      (closed ++ relay_trace P closed server "[WS] Error forwarding to client:" data,
       Ok tt) /\
    deliver P server (CloseEvent code reason) closed =
      (closed ++ [SocketCall openclawWs (OpClose code reason)], Ok tt).
Proof.
  intros He Hd Hh Hl server code reason data.
  destruct (established_listeners P env req h h' openclawWs later He Hd Hh Hl)
    as (_ & Lsc & _).
  assert (Hc : fst (deliver P server (CloseEvent code reason) (h' ++ later)) =
               (h' ++ later) ++ [SocketCall openclawWs (OpClose code reason)]).
  { unfold deliver, server. cbn [event_kind]. cbv zeta in Lsc. rewrite Lsc.
    now rewrite (run_single_closing_listener P _ _ openclawWs code reason). }
  cbv zeta. rewrite Hc. rewrite <- app_assoc.
  assert (Hl' : no_listeners (later ++ [SocketCall openclawWs (OpClose code reason)])).
  { apply no_listeners_app; [exact Hl|]. intros s kind. reflexivity. }
  destruct (established_listeners P env req h h' openclawWs _ He Hd Hh Hl')
    as (_ & Lsc' & _ & Lom' & _).
  cbv zeta in Lsc', Lom'. unfold deliver, server. cbn [event_kind].
  rewrite Lsc', Lom'. repeat split.
  - now apply run_single_relaying_listener.
  - now apply run_single_closing_listener.
Qed.

Lemma bridge_has_no_closed_state_witness :
  let P := Samples.answering Samples.backend_switching in
  let h' := fst (get_root P Samples.env_full Samples.upgrade_request []) in
  let closed := fst (deliver P WsPair1 (CloseEvent 1000 "bye") (h' ++ [])) in
  deliver P WsPair1 (CloseEvent 1000 "bye") closed =
    (closed ++ [SocketCall (WsUpstream 0) (OpClose 1000 "bye")], Ok tt).
Proof.
  apply (bridge_has_no_closed_state
           (Samples.answering Samples.backend_switching)
           Samples.env_full Samples.upgrade_request []
           (fst (get_root (Samples.answering Samples.backend_switching)
                          Samples.env_full Samples.upgrade_request []))
           (WsUpstream 0) [] ).
  - split; [reflexivity|]. exists Samples.backend_switching. split; reflexivity.
  - discriminate.
  - intros s kind. reflexivity.
  - intros s kind. reflexivity.
  - exact "x"%string.
Defined.

Lemma snoc2 {A} (l : list A) (a b : A) : l ++ [a; b] = (l ++ [a]) ++ [b].
Proof. now rewrite <- app_assoc. Qed.

(** X13.  For an authenticated [GET /] with [Upgrade: websocket], when the
    backend's response carries a socket and both [accept] calls go
    through, the handler accepts the server half of the pair and then the
    backend socket, registers the six listeners, and answers 101 with the
    client half of the pair.  The backend's own response is not what the
    caller gets: its status, headers and body play no part. *)
Theorem upgrade_establishes_the_bridge
  (P : Platform) (env : Env) (req : Request) (h : History)
  (r : Response) (openclawWs : Socket) :
  authenticated P env req h = true ->
  req_method req = "GET" ->
  req_path req = "/" ->
  header req "Upgrade" = Some "websocket" ->
  let before := h ++ gate_trace env req in
  let fetched := before ++ [NewWebSocketPair; call_effect (upgrade_call req)] in
  vpc_fetch P (before ++ [NewWebSocketPair])
            (fst (upgrade_call req)) (snd (upgrade_call req)) = Ok r ->
  webSocket r = Some openclawWs ->
  socket_throws P fetched WsPair1 OpAccept = None ->
  socket_throws P (fetched ++ [SocketCall WsPair1 OpAccept]) openclawWs OpAccept = None ->
  app P env req h =
    (fetched ++ [SocketCall WsPair1 OpAccept; SocketCall openclawWs OpAccept]
       ++ bridge_listeners WsPair1 openclawWs,
     Ok (switching_protocols WsPair0)).
Proof.
  intros Ha Hm Hp Hu before fetched Hf Hw H1 H2.
  apply app_admits; [exact Ha|].
  rewrite (route_root P env req Hm Hp). apply guarded_ok.
  rewrite (get_root_upgrade P env req _ Hu). cbv zeta. fold before.
  unfold fetched, call_effect in H1, H2. rewrite snoc2 in H1, H2.
  rewrite Hf, Hw, H1, H2.
  unfold fetched, call_effect. rewrite snoc2. rewrite <- !app_assoc. reflexivity.
Qed.

Lemma upgrade_establishes_the_bridge_witness :
  app (Samples.answering Samples.backend_switching) Samples.env_full
      Samples.upgrade_request [] =
    ([Console LogInfo [LStr "[Auth] Service token validated successfully"];
      NewWebSocketPair;
      call_effect (upgrade_call Samples.upgrade_request);
      SocketCall WsPair1 OpAccept;
      SocketCall (WsUpstream 0) OpAccept]
       ++ bridge_listeners WsPair1 (WsUpstream 0),
     Ok (switching_protocols WsPair0)).
Proof.
  apply (upgrade_establishes_the_bridge
           (Samples.answering Samples.backend_switching) Samples.env_full
           Samples.upgrade_request [] Samples.backend_switching (WsUpstream 0));
    reflexivity.
Defined.

(** X14.  When the backend handed over a socket but [accept] on the
    server half of the pair throws, the handler answers 502 and stops
    there: the backend socket is neither accepted nor closed, and no
    listener is registered. *)
Theorem upgrade_accept_failure
  (P : Platform) (env : Env) (req : Request) (h : History)
  (r : Response) (openclawWs : Socket) (e : Js.Thrown) :
  authenticated P env req h = true ->
  req_method req = "GET" ->
  req_path req = "/" ->
  header req "Upgrade" = Some "websocket" ->
  let before := h ++ gate_trace env req in
  let fetched := before ++ [NewWebSocketPair; call_effect (upgrade_call req)] in
  vpc_fetch P (before ++ [NewWebSocketPair])
            (fst (upgrade_call req)) (snd (upgrade_call req)) = Ok r ->
  webSocket r = Some openclawWs ->
  socket_throws P fetched WsPair1 OpAccept = Some e ->
  exists answer,
    app P env req h =
      (fetched ++ [SocketCall WsPair1 OpAccept;
                   Console LogError [LStr "[WS] WebSocket proxy error:"; LThrown e]],
       Ok answer) /\
    status answer = 502.
Proof.
  intros Ha Hm Hp Hu before fetched Hf Hw H1.
  exists (snd (proxy_error e)). split; [|reflexivity].
  apply app_admits; [exact Ha|].
  rewrite (route_root P env req Hm Hp). apply guarded_ok.
  rewrite (get_root_upgrade P env req _ Hu). cbv zeta. fold before.
  unfold fetched, call_effect in H1. rewrite snoc2 in H1.
  rewrite Hf, Hw, H1.
  unfold fetched, call_effect, proxy_error. cbn [fst snd].
  rewrite snoc2. rewrite <- !app_assoc. reflexivity.
Qed.

Lemma upgrade_accept_failure_witness :
  let P := mkPlatform (fun _ _ _ => Ok Samples.backend_switching)
                      (fun _ _ _ _ _ => None)
                      (fun _ _ op =>
                         match op with
                         | OpAccept => Some (Js.Primitive "already accepted")
                         | _ => None
                         end) in
  exists answer,
    app P Samples.env_full Samples.upgrade_request [] =
      (([] ++ gate_trace Samples.env_full Samples.upgrade_request) ++
         [NewWebSocketPair; call_effect (upgrade_call Samples.upgrade_request)] ++
         [SocketCall WsPair1 OpAccept;
          Console LogError [LStr "[WS] WebSocket proxy error:";
                            LThrown (Js.Primitive "already accepted")]],
       Ok answer) /\
    status answer = 502.
Proof.
  cbv zeta.
  destruct (upgrade_accept_failure
              (mkPlatform (fun _ _ _ => Ok Samples.backend_switching)
                          (fun _ _ _ _ _ => None)
                          (fun _ _ op =>
                             match op with
                             | OpAccept => Some (Js.Primitive "already accepted")
                             | _ => None
                             end))
              Samples.env_full Samples.upgrade_request []
              Samples.backend_switching (WsUpstream 0)
              (Js.Primitive "already accepted")) as [answer [Happ Hs]];
    try reflexivity.
  exists answer. split; [|exact Hs].
  rewrite Happ. rewrite <- app_assoc. reflexivity.
Defined.
